(** * Skill Gap Analyzer frontend: the view controller, verified

    A shallow embedding of the React components of the frontend
    ([App.jsx], [ProfileList.jsx], [ProfileForm.jsx], [ProfileDisplay.jsx],
    [AnalysisChat.jsx]) and the properties of their event handlers.

    Conventions of the embedding:
    - a JavaScript value is a term of [JS.value]; objects are finite maps
      from property names to values;
    - a string is a sequence of code units below 256 (Rocq's [string]);
    - an event handler is a function from the props and the state of the
      render it closes over to the list of effects it performs, in program
      order; [run] folds the state setters of such a list over a state;
    - an [async] handler is split at its [await]: the synchronous prefix
      ends with the request it issues, and the continuation takes the
      settlement of the promise;
    - [new Date()] is an input of the handler that reads the clock. *)

From stdpp Require Import gmap strings list fin_maps pretty.
From Stdlib Require Import ZArith Ascii.

#[local] Open Scope Z_scope.
#[local] Set Warnings "-register-all,-clear-no-such-hyp".

(** ** JavaScript values and the operators the components use *)

Module JS.

Inductive value : Type :=
| Undefined
| Null
| Bool (b : bool)
| Num (n : Z)
| Str (s : string)
| Arr (l : list value)
| Obj (o : gmap string value).

(** Abrupt completion of an expression or statement: [Throw e]. *)
Inductive result (A : Type) : Type :=
| Ok (a : A)
| Throw (e : value).
Arguments Ok {A} a.
Arguments Throw {A} e.

#[export] Instance result_ret : MRet result := @Ok.

#[export] Instance result_bind : MBind result := fun A B k r =>
  match r with
  | Ok a => k a
  | Throw e => Throw e
  end.

(** ToBoolean: [undefined], [null], [false], [0] and [''] are falsy. *)
Definition truthy (v : value) : bool :=
  match v with
  | Undefined | Null => false
  | Bool b => b
  | Num n => negb (n =? 0)
  | Str s => negb (String.eqb s "")
  | Arr _ | Obj _ => true
  end.

Definition nullish (v : value) : bool :=
  match v with
  | Undefined | Null => true
  | _ => false
  end.

(** [a || b] on values already evaluated. *)
Definition or (a b : value) : value := if truthy a then a else b.

(** [Object.is], by which React compares the dependencies of an effect.
    Primitives are compared by value.  Two objects or two arrays are
    compared by reference, which a [value] does not carry: [same_ref] says
    whether the two are one and the same object. *)
Definition Object_is (same_ref : bool) (a b : value) : bool :=
  match a, b with
  | Undefined, Undefined | Null, Null => true
  | Bool x, Bool y => Bool.eqb x y
  | Num x, Num y => x =? y
  | Str x, Str y => String.eqb x y
  | Arr _, Arr _ | Obj _, Obj _ => same_ref
  | _, _ => false
  end.

(** [a || b] on strings: the empty string is the falsy one. *)
Definition or_str (a b : string) : string :=
  if String.eqb a "" then b else a.

Definition chars (s : string) : list value :=
  (fun c => Str (String c EmptyString)) <$> String.list_ascii_of_string s.

Definition indexed (l : list value) : gmap string value :=
  list_to_map (imap (fun (i : nat) v => (pretty i, v)) l).

(** Own enumerable properties: what [{...v}] copies. *)
Definition own (v : value) : gmap string value :=
  match v with
  | Obj o => o
  | Arr l => indexed l
  | Str s => indexed (chars s)
  | _ => ∅
  end.

(** What the engine reports when a property of [undefined] or [null] is
    read (the wording is V8's). *)
Definition TypeError (v : value) (k : string) : value :=
  Obj {[ "message" :=
         Str ("Cannot read properties of "
              +:+ (if v is Null then "null" else "undefined")
              +:+ " (reading '" +:+ k +:+ "')") ]}.

(** [v.k], for the data properties this program reads: own properties and
    the [length] of arrays and strings. *)
Definition prop (v : value) (k : string) : result value :=
  match v with
  | Undefined | Null => Throw (TypeError v k)
  | Arr l =>
      if String.eqb k "length" then Ok (Num (Z.of_nat (List.length l)))
      else Ok (default Undefined (own v !! k))
  | Str s =>
      if String.eqb k "length" then Ok (Num (Z.of_nat (String.length s)))
      else Ok (default Undefined (own v !! k))
  | _ => Ok (default Undefined (own v !! k))
  end.

(** [v?.k] *)
Definition opt_prop (v : value) (k : string) : result value :=
  if nullish v then Ok Undefined else prop v k.

(** [o.k] for a value known to be an object. *)
Definition field (o : gmap string value) (k : string) : value :=
  default Undefined (o !! k).

Definition isArray (v : value) : bool :=
  match v with
  | Arr _ => true
  | _ => false
  end.

(** WhiteSpace and LineTerminator code units below 256: TAB, LF, VT, FF,
    CR, SP and NBSP. *)
Definition is_ws (c : ascii) : bool :=
  match N_of_ascii c with
  | 9 | 10 | 11 | 12 | 13 | 32 | 160 => true
  | _ => false
  end%N.

Fixpoint trimStart (s : string) : string :=
  match s with
  | EmptyString => EmptyString
  | String c s' => if is_ws c then trimStart s' else s
  end.

Fixpoint trimEnd (s : string) : string :=
  match s with
  | EmptyString => EmptyString
  | String c s' =>
      match trimEnd s' with
      | EmptyString => if is_ws c then EmptyString else String c EmptyString
      | t => String c t
      end
  end.

(** [s.trim()] *)
Definition trim (s : string) : string := trimEnd (trimStart s).

(** [!s.trim()] *)
Definition blank (s : string) : bool := String.eqb (trim s) "".

(** A string that is empty or made of white space only. *)
Definition whitespace_only (s : string) : Prop :=
  Forall (fun c => is_ws c = true) (String.list_ascii_of_string s).

(** [sub] occurs in [s]. *)
Definition contains (s sub : string) : Prop :=
  exists before after, s = before +:+ sub +:+ after.

(** Lower-case mapping of one code unit below 256: A-Z and the Latin-1
    capitals, except the multiplication sign. *)
Definition lower (c : ascii) : ascii :=
  let n := N_of_ascii c in
  if ((65 <=? n) && (n <=? 90) || (192 <=? n) && (n <=? 222) && negb (n =? 215))%N
  then ascii_of_N (n + 32)
  else c.

Fixpoint toLowerCase (s : string) : string :=
  match s with
  | EmptyString => EmptyString
  | String c s' => String (lower c) (toLowerCase s')
  end.

(** [try { body } catch (e) { handler }] *)
Definition try_catch {A} (body : result A) (handler : value -> result A)
  : result A :=
  match body with
  | Ok a => Ok a
  | Throw e => handler e
  end.

(** The settlement of an awaited promise. *)
Inductive outcome : Type :=
| Resolved (v : value)
| Rejected (reason : value).

(** [err.response?.data?.detail || err.message || fallback], the chain every
    [catch] block of the components evaluates. *)
Definition error_text (err : value) (fallback : string) : result value :=
  response ← prop err "response";
  data ← opt_prop response "data";
  detail ← opt_prop data "detail";
  if truthy detail then Ok detail
  else
    message ← prop err "message";
    Ok (or message (Str fallback)).

(** The precedence of the three sources of an error text, stated on the
    error object: the payload of the response carries a truthy [detail]; if
    not, the error has a truthy [message]; if not, the fallback. *)
Definition payload_detail (err detail : value) : Prop :=
  exists response data,
    prop err "response" = Ok response /\ prop response "data" = Ok data /\
    prop data "detail" = Ok detail /\ truthy detail = true.

Definition raw_text (err text : value) : Prop :=
  prop err "message" = Ok text /\ truthy text = true.

Inductive chosen_text (err : value) (fallback : string) : value -> Prop :=
| by_detail d :
    payload_detail err d -> chosen_text err fallback d
| by_message m :
    (forall d, ~ payload_detail err d) -> raw_text err m ->
    chosen_text err fallback m
| by_fallback :
    (forall d, ~ payload_detail err d) -> (forall m, ~ raw_text err m) ->
    chosen_text err fallback (Str fallback).

End JS.

(** ** AnalysisChat.jsx: the chat-style analysis session *)

Module AnalysisChat.
Import JS.

Inductive MessageType : Type := user | assistant | error.

Record Message : Type := {
  type : MessageType;
  content : value;
  report : option value;
  timestamp : Z
}.

(** The [profile] prop is dereferenced by the render ([profile.name]) and
    App mounts the chat only for a truthy [selectedProfile]: it is given by
    its own properties. *)
Record Props : Type := { profile : gmap string value }.

Record State : Type := {
  messages : list Message;
  input : string;
  loading : bool;
  targetRole : string
}.

Definition initial : State :=
  {| messages := []; input := ""; loading := false; targetRole := "" |}.

Inductive effect : Type :=
| setMessages (m : Message)        (* setMessages((prev) => [...prev, m]) *)
| setInput (s : string)
| setLoading (b : bool)
| setTargetRole (s : string)
| analyze (requestData : value).   (* analysisAPI.analyze(requestData) *)

Definition apply (st : State) (e : effect) : State :=
  match e with
  | setMessages m =>
      {| messages := messages st ++ [m]; input := input st;
         loading := loading st; targetRole := targetRole st |}
  | setInput s =>
      {| messages := messages st; input := s;
         loading := loading st; targetRole := targetRole st |}
  | setLoading b =>
      {| messages := messages st; input := input st;
         loading := b; targetRole := targetRole st |}
  | setTargetRole s =>
      {| messages := messages st; input := input st;
         loading := loading st; targetRole := s |}
  | analyze _ => st
  end.

Definition run (es : list effect) (st : State) : State := foldl apply st es.

Definition requestData (p : Props) (currentInput currentTargetRole : string)
  : value :=
  Obj {[ "user_profile_id" :=
           or (field (profile p) "id") (field (profile p) "profile_id");
         "user_query" := Str currentInput;
         "target_role" :=
           Obj {[ "role_name" := Str currentTargetRole;
                  "description" := Str "";
                  "skill_framework" := Str "" ]};
         "use_rag" := Bool true ]}.

Definition userMessage (st : State) (now : Z) : Message :=
  {| type := user; content := Str (input st); report := None;
     timestamp := now |}.

(** [handleSend], up to the [await]. *)
Definition handleSend (p : Props) (st : State) (now : Z) : list effect :=
  if blank (input st) || blank (targetRole st) || loading st then []
  else
    let currentInput := input st in
    let currentTargetRole := targetRole st in
    [ setMessages (userMessage st now);
      setLoading true;
      setInput "";
      analyze (requestData p currentInput currentTargetRole) ].

(** The rest of the [try] block, once the promise is fulfilled. *)
Definition handleSend_then (response : value) (now : Z)
  : result (list effect) :=
  summary ← prop response "analysis_summary";
  Ok [ setMessages {| type := assistant;
                      content := or summary (Str "Analysis completed");
                      report := Some response;
                      timestamp := now |} ].

(** The [catch] block. *)
Definition handleSend_catch (err : value) (now : Z) : result (list effect) :=
  text ← error_text err "Failed to analyze skills";
  Ok [ setMessages {| type := error; content := text; report := None;
                      timestamp := now |} ].

(** [handleSend] from the settlement of [analysisAPI.analyze] on: the
    effects performed, and the exception the handler ends with, if any. *)
Definition handleSend_settled (o : outcome) (now : Z)
  : list effect * option value :=
  let body :=
    match o with
    | Resolved response =>
        try_catch (handleSend_then response now)
                  (fun e => handleSend_catch e now)
    | Rejected err => handleSend_catch err now
    end in
  match body with
  | Ok es => (es ++ [setLoading false], None)
  | Throw e => ([setLoading false], Some e)
  end.

(** What can happen to a mounted chat: the two [onChange] handlers, a
    click on Send or Enter in either field, and the settlement of the
    request in flight. *)
Inductive event : Type :=
| ChangeTargetRole (s : string)
| ChangeInput (s : string)
| Send (now : Z)
| Settled (o : outcome) (now : Z).

Definition effects (p : Props) (st : State) (ev : event) : list effect :=
  match ev with
  | ChangeTargetRole s => [setTargetRole s]
  | ChangeInput s => [setInput s]
  | Send now => handleSend p st now
  | Settled o now => (handleSend_settled o now).1
  end.

Definition step (p : Props) (st : State) (ev : event) : State :=
  run (effects p st ev) st.

Definition steps (p : Props) (evs : list event) (st : State) : State :=
  foldl (step p) st evs.

(** The events of the user alone. *)
Definition is_ui (ev : event) : bool :=
  match ev with
  | Settled _ _ => false
  | _ => true
  end.

(** The events that type into the query textarea, and into the role
    field. *)
Definition types_query (ev : event) : bool :=
  match ev with
  | ChangeInput _ => true
  | _ => false
  end.

Definition types_role (ev : event) : bool :=
  match ev with
  | ChangeTargetRole _ => true
  | _ => false
  end.

(** [req.target_role.role_name] *)
Definition role_name (req : value) : result value :=
  target_role ← prop req "target_role";
  prop target_role "role_name".

(** The [disabled] attribute of the Send button and of the textarea. *)
Definition send_disabled (st : State) : bool :=
  loading st || blank (input st) || blank (targetRole st).

Definition textarea_disabled (st : State) : bool :=
  loading st || blank (targetRole st).

(** The fields of a keyboard event the handlers read. *)
Record KeyboardEvent : Type := { key : string; shiftKey : bool }.

(** [handleKeyPress], the [onKeyPress] of the textarea: whether it calls
    [e.preventDefault()], and the effects of the [handleSend] it calls. *)
Definition handleKeyPress (p : Props) (st : State) (now : Z)
    (e : KeyboardEvent) : bool * list effect :=
  if String.eqb (key e) "Enter" && negb (shiftKey e)
  then (true, handleSend p st now)
  else (false, []).

(** The [onKeyPress] of the target role field. *)
Definition targetRole_onKeyPress (p : Props) (st : State) (now : Z)
    (e : KeyboardEvent) : list effect :=
  if String.eqb (key e) "Enter" then handleSend p st now else [].

(** The effects performed along a run of events, in order. *)
Fixpoint emitted (p : Props) (evs : list event) (st : State) : list effect :=
  match evs with
  | [] => []
  | ev :: evs => effects p st ev ++ emitted p evs (step p st ev)
  end.

End AnalysisChat.

(** ** ProfileForm.jsx: the skill and certification entries of the form *)

Module Skill.

Record t : Type := {
  name : string;
  proficiency : string;
  years_experience : Z
}.

End Skill.

Module ProfileForm.
Import JS.

Record FormData : Type := {
  name : string;
  current_role : string;
  skills : list Skill.t;
  certifications : list string;
  experience_years : Z
}.

Record State : Type := {
  formData : FormData;
  newSkill : Skill.t;
  newCert : string;
  loading : bool;
  error : value
}.

Definition emptySkill : Skill.t :=
  {| Skill.name := ""; Skill.proficiency := "beginner";
     Skill.years_experience := 0 |}.

Definition initial : State :=
  {| formData := {| name := ""; current_role := ""; skills := [];
                    certifications := []; experience_years := 0 |};
     newSkill := emptySkill;
     newCert := "";
     loading := false;
     error := Null |}.

Inductive effect : Type :=
| setFormData (d : FormData)
| setNewSkill (k : Skill.t)
| setNewCert (c : string).

Definition apply (st : State) (e : effect) : State :=
  match e with
  | setFormData d =>
      {| formData := d; newSkill := newSkill st; newCert := newCert st;
         loading := loading st; error := error st |}
  | setNewSkill k =>
      {| formData := formData st; newSkill := k; newCert := newCert st;
         loading := loading st; error := error st |}
  | setNewCert c =>
      {| formData := formData st; newSkill := newSkill st; newCert := c;
         loading := loading st; error := error st |}
  end.

Definition run (es : list effect) (st : State) : State := foldl apply st es.

Definition handleAddSkill (st : State) : list effect :=
  if negb (blank (Skill.name (newSkill st))) then
    let d := formData st in
    [ setFormData {| name := name d; current_role := current_role d;
                     skills := skills d ++ [newSkill st];
                     certifications := certifications d;
                     experience_years := experience_years d |};
      setNewSkill emptySkill ]
  else [].

Definition handleAddCert (st : State) : list effect :=
  if negb (blank (newCert st)) then
    let d := formData st in
    [ setFormData {| name := name d; current_role := current_role d;
                     skills := skills d;
                     certifications := certifications d ++ [newCert st];
                     experience_years := experience_years d |};
      setNewCert "" ]
  else [].

(** [l.filter((_, i) => i !== index)] *)
Definition filter_index {A} (index : nat) (l : list A) : list A :=
  snd <$> List.filter (fun p => negb (Nat.eqb p.1 index)) (imap pair l).

Definition handleRemoveSkill (index : nat) (st : State) : list effect :=
  let d := formData st in
  [ setFormData {| name := name d; current_role := current_role d;
                   skills := filter_index index (skills d);
                   certifications := certifications d;
                   experience_years := experience_years d |} ].

Definition handleRemoveCert (index : nat) (st : State) : list effect :=
  let d := formData st in
  [ setFormData {| name := name d; current_role := current_role d;
                   skills := skills d;
                   certifications := filter_index index (certifications d);
                   experience_years := experience_years d |} ].

(** Whether the parent passes each callback. *)
Record Props : Type := { onSuccess : bool; onCancel : bool }.

(** The effects of [handleSubmit]. *)
Inductive submit_effect : Type :=
| preventDefault
| setLoading (b : bool)
| setError (v : value)
| create (profileData : value)       (* profileAPI.create(profileData) *)
| call_onSuccess (result : value).   (* onSuccess(result) *)

Definition apply_submit (st : State) (e : submit_effect) : State :=
  match e with
  | setLoading b =>
      {| formData := formData st; newSkill := newSkill st;
         newCert := newCert st; loading := b; error := error st |}
  | setError v =>
      {| formData := formData st; newSkill := newSkill st;
         newCert := newCert st; loading := loading st; error := v |}
  | _ => st
  end.

Definition run_submit (es : list submit_effect) (st : State) : State :=
  foldl apply_submit st es.

(** One skill of the payload: [years_experience: skill.years_experience || 0]. *)
Definition skill_payload (k : Skill.t) : value :=
  Obj {[ "name" := Str (Skill.name k);
         "proficiency" := Str (Skill.proficiency k);
         "years_experience" := or (Num (Skill.years_experience k)) (Num 0) ]}.

(** [{ ...formData, skills: formData.skills.map(...) }] *)
Definition profileData (d : FormData) : value :=
  Obj {[ "name" := Str (name d);
         "current_role" := Str (current_role d);
         "skills" := Arr (skill_payload <$> skills d);
         "certifications" := Arr (Str <$> certifications d);
         "experience_years" := Num (experience_years d) ]}.

(** [handleSubmit], up to the [await]. *)
Definition handleSubmit (st : State) : list submit_effect :=
  [ preventDefault; setLoading true; setError Null;
    create (profileData (formData st)) ].

(** [handleSubmit] from the settlement of [profileAPI.create] on. *)
Definition handleSubmit_settled (p : Props) (o : outcome)
  : list submit_effect * option value :=
  let body :=
    match o with
    | Resolved result =>
        Ok (if onSuccess p then [ call_onSuccess result ] else [])
    | Rejected err =>
        text ← error_text err "Failed to create profile";
        Ok [ setError text ]
    end in
  match body with
  | Ok es => (es ++ [setLoading false], None)
  | Throw e => ([setLoading false], Some e)
  end.

End ProfileForm.

(** ** ProfileList.jsx: the list view *)

Module ProfileList.
Import JS.

(** Whether the parent passes each callback. *)
Record Props : Type := { onSelectProfile : bool; onCreateNew : bool }.

Record State : Type := {
  profiles : value;
  loading : bool;
  error : value
}.

Definition initial : State :=
  {| profiles := Arr []; loading := true; error := Null |}.

Inductive effect : Type :=
| setProfiles (v : value)
| setLoading (b : bool)
| setError (v : value)
| list_profiles                              (* profileAPI.list() *)
| select (profile : gmap string value)       (* onSelectProfile(...) *)
| console_error (v : value)
| alert (text : string).

Definition apply (st : State) (e : effect) : State :=
  match e with
  | setProfiles v =>
      {| profiles := v; loading := loading st; error := error st |}
  | setLoading b =>
      {| profiles := profiles st; loading := b; error := error st |}
  | setError v =>
      {| profiles := profiles st; loading := loading st; error := v |}
  | _ => st
  end.

Definition run (es : list effect) (st : State) : State := foldl apply st es.

(** [loadProfiles], up to the [await]. *)
Definition loadProfiles : list effect :=
  [ setLoading true; setError Null; list_profiles ].

(** [loadProfiles] from the settlement of [profileAPI.list] on. *)
Definition loadProfiles_settled (o : outcome) : list effect * option value :=
  let body :=
    match o with
    | Resolved data => Ok [ setProfiles (if isArray data then data else Arr []) ]
    | Rejected err =>
        text ← error_text err "Failed to load profiles";
        Ok [ setError text ]
    end in
  match body with
  | Ok es => (es ++ [setLoading false], None)
  | Throw e => ([setLoading false], Some e)
  end.

(** One card of the grid: the [profileId] the render computes for a
    record, and the record. *)
Record card : Type := { profileId : value; profile : value }.

Definition card_of (profile : value) : result card :=
  id ← prop profile "id";
  profileId ← (if truthy id then Ok id else prop profile "profile_id");
  Ok {| profileId := profileId; profile := profile |}.

Inductive rendered : Type :=
| Spinner
| ErrorBanner (e : value)
| NoProfilesFound
| Grid (cards : list card).

Definition render (st : State) : result rendered :=
  if loading st then Ok Spinner
  else if truthy (error st) then Ok (ErrorBanner (error st))
  else
    len ← prop (profiles st) "length";
    match len with
    | Num 0 => Ok NoProfilesFound
    | _ =>
        match profiles st with
        | Arr l => cards ← mapM card_of l; Ok (Grid cards)
        | _ => Throw (Obj {[ "message" := Str "profiles.map is not a function" ]})
        end
    end.

(** The [onClick] of a card. *)
Definition onClick (p : Props) (c : card) : list effect :=
  if onSelectProfile p && truthy (profileId c) then
    [ select (<["id" := profileId c]> (own (profile c))) ]
  else
    [ console_error (profile c); alert "Error: Profile ID not found" ].

Inductive event : Type :=
| Mounted                      (* the effect of the first render *)
| Settled (o : outcome)        (* profileAPI.list() settles *)
| Click (c : card).

Definition effects (p : Props) (ev : event) : list effect :=
  match ev with
  | Mounted => loadProfiles
  | Settled o => (loadProfiles_settled o).1
  | Click c => onClick p c
  end.

Definition step (p : Props) (st : State) (ev : event) : State :=
  run (effects p ev) st.

Definition steps (p : Props) (evs : list event) (st : State) : State :=
  foldl (step p) st evs.

End ProfileList.

(** ** ProfileDisplay.jsx: the profile dashboard *)

Module ProfileDisplay.
Import JS.

Record Props : Type := { profileId : value }.

Record State : Type := {
  profile : value;
  loading : bool;
  error : value;
  showAnalysis : bool;
  analysisQuery : string;
  targetRole : string;
  analyzing : bool;
  analysisResult : value;
  analysisError : value;
  showSkillsModal : bool;
  modalSkills : value;
  modalTitle : string
}.

Definition initial : State :=
  {| profile := Null; loading := true; error := Null;
     showAnalysis := false; analysisQuery := ""; targetRole := "";
     analyzing := false; analysisResult := Null; analysisError := Null;
     showSkillsModal := false; modalSkills := Arr []; modalTitle := "" |}.

Inductive effect : Type :=
| setProfile (v : value)
| setLoading (b : bool)
| setError (v : value)
| setShowAnalysis (b : bool)
| setAnalysisQuery (s : string)
| setTargetRole (s : string)
| setAnalyzing (b : bool)
| setAnalysisResult (v : value)
| setAnalysisError (v : value)
| setShowSkillsModal (b : bool)
| setModalSkills (v : value)
| setModalTitle (s : string)
| get (profileId : value)            (* profileAPI.get(profileId) *)
| analyze (requestData : value)      (* analysisAPI.analyze(requestData) *)
| navigate (profile : value)         (* onAnalyze(profile) *)
| console_error (v : value)
| alert (text : string).

Definition apply (st : State) (e : effect) : State :=
  match e with
  | setProfile v =>
      {| profile := v; loading := loading st; error := error st;
         showAnalysis := showAnalysis st; analysisQuery := analysisQuery st;
         targetRole := targetRole st; analyzing := analyzing st;
         analysisResult := analysisResult st;
         analysisError := analysisError st;
         showSkillsModal := showSkillsModal st;
         modalSkills := modalSkills st; modalTitle := modalTitle st |}
  | setLoading b =>
      {| profile := profile st; loading := b; error := error st;
         showAnalysis := showAnalysis st; analysisQuery := analysisQuery st;
         targetRole := targetRole st; analyzing := analyzing st;
         analysisResult := analysisResult st;
         analysisError := analysisError st;
         showSkillsModal := showSkillsModal st;
         modalSkills := modalSkills st; modalTitle := modalTitle st |}
  | setError v =>
      {| profile := profile st; loading := loading st; error := v;
         showAnalysis := showAnalysis st; analysisQuery := analysisQuery st;
         targetRole := targetRole st; analyzing := analyzing st;
         analysisResult := analysisResult st;
         analysisError := analysisError st;
         showSkillsModal := showSkillsModal st;
         modalSkills := modalSkills st; modalTitle := modalTitle st |}
  | setShowAnalysis b =>
      {| profile := profile st; loading := loading st; error := error st;
         showAnalysis := b; analysisQuery := analysisQuery st;
         targetRole := targetRole st; analyzing := analyzing st;
         analysisResult := analysisResult st;
         analysisError := analysisError st;
         showSkillsModal := showSkillsModal st;
         modalSkills := modalSkills st; modalTitle := modalTitle st |}
  | setAnalysisQuery s =>
      {| profile := profile st; loading := loading st; error := error st;
         showAnalysis := showAnalysis st; analysisQuery := s;
         targetRole := targetRole st; analyzing := analyzing st;
         analysisResult := analysisResult st;
         analysisError := analysisError st;
         showSkillsModal := showSkillsModal st;
         modalSkills := modalSkills st; modalTitle := modalTitle st |}
  | setTargetRole s =>
      {| profile := profile st; loading := loading st; error := error st;
         showAnalysis := showAnalysis st; analysisQuery := analysisQuery st;
         targetRole := s; analyzing := analyzing st;
         analysisResult := analysisResult st;
         analysisError := analysisError st;
         showSkillsModal := showSkillsModal st;
         modalSkills := modalSkills st; modalTitle := modalTitle st |}
  | setAnalyzing b =>
      {| profile := profile st; loading := loading st; error := error st;
         showAnalysis := showAnalysis st; analysisQuery := analysisQuery st;
         targetRole := targetRole st; analyzing := b;
         analysisResult := analysisResult st;
         analysisError := analysisError st;
         showSkillsModal := showSkillsModal st;
         modalSkills := modalSkills st; modalTitle := modalTitle st |}
  | setAnalysisResult v =>
      {| profile := profile st; loading := loading st; error := error st;
         showAnalysis := showAnalysis st; analysisQuery := analysisQuery st;
         targetRole := targetRole st; analyzing := analyzing st;
         analysisResult := v;
         analysisError := analysisError st;
         showSkillsModal := showSkillsModal st;
         modalSkills := modalSkills st; modalTitle := modalTitle st |}
  | setAnalysisError v =>
      {| profile := profile st; loading := loading st; error := error st;
         showAnalysis := showAnalysis st; analysisQuery := analysisQuery st;
         targetRole := targetRole st; analyzing := analyzing st;
         analysisResult := analysisResult st;
         analysisError := v;
         showSkillsModal := showSkillsModal st;
         modalSkills := modalSkills st; modalTitle := modalTitle st |}
  | setShowSkillsModal b =>
      {| profile := profile st; loading := loading st; error := error st;
         showAnalysis := showAnalysis st; analysisQuery := analysisQuery st;
         targetRole := targetRole st; analyzing := analyzing st;
         analysisResult := analysisResult st;
         analysisError := analysisError st;
         showSkillsModal := b;
         modalSkills := modalSkills st; modalTitle := modalTitle st |}
  | setModalSkills v =>
      {| profile := profile st; loading := loading st; error := error st;
         showAnalysis := showAnalysis st; analysisQuery := analysisQuery st;
         targetRole := targetRole st; analyzing := analyzing st;
         analysisResult := analysisResult st;
         analysisError := analysisError st;
         showSkillsModal := showSkillsModal st;
         modalSkills := v; modalTitle := modalTitle st |}
  | setModalTitle s =>
      {| profile := profile st; loading := loading st; error := error st;
         showAnalysis := showAnalysis st; analysisQuery := analysisQuery st;
         targetRole := targetRole st; analyzing := analyzing st;
         analysisResult := analysisResult st;
         analysisError := analysisError st;
         showSkillsModal := showSkillsModal st;
         modalSkills := modalSkills st; modalTitle := s |}
  | _ => st
  end.

Definition run (es : list effect) (st : State) : State := foldl apply st es.

(** [loadProfile], up to the [await]. *)
Definition loadProfile (p : Props) : list effect :=
  if negb (truthy (profileId p)) then
    [ setLoading false; setError (Str "No profile ID provided") ]
  else
    [ setLoading true; setError Null; get (profileId p) ].

(** [loadProfile] from the settlement of [profileAPI.get] on: no test of
    [profileId] stands between the [await] and [setProfile(data)]. *)
Definition loadProfile_settled (o : outcome) : list effect * option value :=
  match o with
  | Resolved data => ([ setProfile data; setLoading false ], None)
  | Rejected err =>
      match error_text err "Failed to load profile" with
      | Ok text =>
          ([ console_error err; setError text; setLoading false ], None)
      | Throw e => ([ console_error err; setLoading false ], Some e)
      end
  end.

(** The effect of [useEffect(..., [profileId])], run after the first
    render and after every render that changed [profileId]. *)
Definition profileId_effect (p : Props) : list effect :=
  if truthy (profileId p) then loadProfile p
  else [ setLoading false; setError (Str "No profile ID provided") ].

(** [handleAnalyze], up to the [await]. *)
Definition handleAnalyze (p : Props) (st : State) : list effect :=
  if negb (truthy (profileId p)) then
    [ setAnalysisError (Str "Profile ID is missing") ]
  else
    [ setAnalyzing true;
      setAnalysisError Null;
      setAnalysisResult Null;
      analyze
        (Obj {[ "user_profile_id" := profileId p;
                "user_query" :=
                  Str (or_str (analysisQuery st)
                         ("I want to transition to "
                          +:+ or_str (targetRole st) "a new role" +:+ "."));
                "target_role" :=
                  Obj {[ "role_name" :=
                           Str (or_str (targetRole st) "Target Role");
                         "description" := Str "";
                         "skill_framework" := Str "" ]};
                "use_rag" := Bool true ]}) ].

(** [handleAnalyze] from the settlement of [analysisAPI.analyze] on. *)
Definition handleAnalyze_settled (o : outcome) : list effect * option value :=
  let body :=
    match o with
    | Resolved response => Ok [ setAnalysisResult response ]
    | Rejected err =>
        text ← error_text err "Failed to analyze skills";
        Ok [ setAnalysisError text ]
    end in
  match body with
  | Ok es => (es ++ [setAnalyzing false], None)
  | Throw e => ([setAnalyzing false], Some e)
  end.

(** [skills.length === 0] *)
Definition length_is_0 (skills : value) : bool :=
  match prop skills "length" with
  | Ok (Num 0) => true
  | _ => false
  end.

Definition handleShowSkills (skills : value) (title : string) : list effect :=
  if negb (truthy skills) || length_is_0 skills then
    [ alert ("No " +:+ toLowerCase title +:+ " found.") ]
  else
    [ setModalSkills skills; setModalTitle title; setShowSkillsModal true ].

Definition handleCloseModal : list effect :=
  [ setShowSkillsModal false; setModalSkills (Arr []); setModalTitle "" ].

(** A mounted dashboard: the props of its last render and its state. *)
Record Instance : Type := { props : Props; state : State }.

Definition mount (p : Props) : Instance :=
  {| props := p; state := run (profileId_effect p) initial |}.

(** What can happen to a mounted dashboard: the parent renders it again,
    a promise it awaits settles, or the user acts.  A render comes with the
    props passed and with whether a [profileId] that is an object is the
    one of the render before. *)
Inductive event : Type :=
| Rendered (p : Props) (same_ref : bool)
| ProfileSettled (o : outcome)
| AnalysisSettled (o : outcome)
| ToggleAnalysis
| ChangeTargetRole (s : string)
| ChangeAnalysisQuery (s : string)
| ClickAnalyze
| ClickAnalyzeSkills
| ShowSkills (skills : value) (title : string)
| CloseModal.

Definition effects (i : Instance) (ev : event) : list effect :=
  match ev with
  | Rendered p same_ref =>
      if Object_is same_ref (profileId p) (profileId (props i)) then []
      else profileId_effect p
  | ProfileSettled o => (loadProfile_settled o).1
  | AnalysisSettled o => (handleAnalyze_settled o).1
  | ToggleAnalysis => [ setShowAnalysis (negb (showAnalysis (state i))) ]
  | ChangeTargetRole s => [ setTargetRole s ]
  | ChangeAnalysisQuery s => [ setAnalysisQuery s ]
  | ClickAnalyze => handleAnalyze (props i) (state i)
  | ClickAnalyzeSkills => [ navigate (profile (state i)) ]
  | ShowSkills skills title => handleShowSkills skills title
  | CloseModal => handleCloseModal
  end.

Definition step (i : Instance) (ev : event) : Instance :=
  {| props := match ev with Rendered p _ => p | _ => props i end;
     state := run (effects i ev) (state i) |}.

Definition steps (evs : list event) (i : Instance) : Instance :=
  foldl step i evs.

(** The head of the component's render (l.502-520): its three early
    returns, the spinner, the banner [{error}] and [null], or [Proceeds]
    when none of them is taken.  Then the component goes on to the handlers
    and the JSX of the dashboard (l.522-985), which read the fields of
    [profile] ([profile.skills.length], [skill.name] under a [map], ...) and
    can throw on a payload of another shape: that part is not embedded, and
    [Proceeds profile] says nothing on what it renders. *)
Inductive screen : Type :=
| Spinner
| ErrorBanner (e : value)
| Blank
| Proceeds (profile : value).

Definition render (st : State) : screen :=
  if loading st then Spinner
  else if truthy (error st) then ErrorBanner (error st)
  else if negb (truthy (profile st)) then Blank
  else Proceeds (profile st).

(** The [disabled] attribute of the Analyze button of the dashboard. *)
Definition analyze_disabled (st : State) : bool :=
  analyzing st || blank (targetRole st).

(** [n > 0] for the values [n] a [length] has in a payload: a number, or
    [undefined] when there is no such property. *)
Definition gt_0 (n : value) : option bool :=
  match n with
  | Num z => Some (0 <? z)
  | Undefined => Some false
  | _ => None
  end.

(** Whether the 'Skills Weak' button is rendered for a result:
    [analysisResult.skills_weak && analysisResult.skills_weak.length > 0]. *)
Definition weak_button (analysisResult : value) : option bool :=
  match prop analysisResult "skills_weak" with
  | Ok skills_weak =>
      if truthy skills_weak then
        match prop skills_weak "length" with
        | Ok n => gt_0 n
        | Throw _ => None
        end
      else Some false
  | Throw _ => None
  end.

(** What the user can do while an analysis is in flight: the Analyze button
    is disabled. *)
Definition is_quiet (ev : event) : bool :=
  match ev with
  | ToggleAnalysis | ChangeTargetRole _ | ChangeAnalysisQuery _
  | ClickAnalyzeSkills | ShowSkills _ _ | CloseModal => true
  | _ => false
  end.

End ProfileDisplay.

(** ** App.jsx: the view router *)

Module App.
Import JS.

Inductive View : Type := list_view | create_view | profile_view | chat_view.

Inductive ApiStatus : Type := checking | connected | disconnected.

Record State : Type := {
  view : View;
  selectedProfile : value;
  apiStatus : ApiStatus
}.

Definition initial : State :=
  {| view := list_view; selectedProfile := Null; apiStatus := checking |}.

Inductive effect : Type :=
| setView (v : View)
| setSelectedProfile (v : value)
| setApiStatus (s : ApiStatus)
| console_error (v : value)
| alert (text : string).

Definition apply (st : State) (e : effect) : State :=
  match e with
  | setView v =>
      {| view := v; selectedProfile := selectedProfile st;
         apiStatus := apiStatus st |}
  | setSelectedProfile v =>
      {| view := view st; selectedProfile := v; apiStatus := apiStatus st |}
  | setApiStatus s =>
      {| view := view st; selectedProfile := selectedProfile st;
         apiStatus := s |}
  | _ => st
  end.

Definition run (es : list effect) (st : State) : State := foldl apply st es.

(** [checkApiHealth] from the settlement of [healthCheck()] on. *)
Definition checkApiHealth_settled (o : outcome) : list effect :=
  match o with
  | Resolved _ => [ setApiStatus connected ]
  | Rejected _ => [ setApiStatus disconnected ]
  end.

Definition handleCreateProfile : list effect := [ setView create_view ].

Definition handleProfileCreated (result : value) : list effect :=
  [ setView list_view ].

Definition handleSelectProfile (profile : gmap string value) : list effect :=
  let profileId := or (field profile "id") (field profile "profile_id") in
  if negb (truthy profileId) then
    [ console_error (Obj profile);
      alert "Error: Profile ID not found. Please try again." ]
  else
    [ setSelectedProfile (Obj (<["id" := profileId]> profile));
      setView profile_view ].

Definition handleAnalyze (profile : value) : list effect :=
  [ setSelectedProfile profile; setView chat_view ].

Definition handleBackToList : list effect :=
  [ setView list_view; setSelectedProfile Null ].

(** The child of [<main>] a state renders, with the props that matter. *)
Inductive element : Type :=
| list_element
| form_element
| display_element (profileId : value)
| chat_element (profile : value).

Definition main (st : State) : option element :=
  let sp := selectedProfile st in
  match view st with
  | list_view => Some list_element
  | create_view => Some form_element
  | profile_view =>
      if truthy sp then
        Some (display_element
                (or (or (field (own sp) "id") (field (own sp) "profile_id"))
                    (field (own sp) "id")))
      else None
  | chat_view => if truthy sp then Some (chat_element sp) else None
  end.

(** The calls the rendered tree and the health probe make into App. *)
Inductive event : Type :=
| HealthSettled (o : outcome)
| CreateProfile
| ProfileCreated (result : value)
| SelectProfile (profile : gmap string value)
| Analyze (profile : value)
| BackToList.

Definition effects (ev : event) : list effect :=
  match ev with
  | HealthSettled o => checkApiHealth_settled o
  | CreateProfile => handleCreateProfile
  | ProfileCreated result => handleProfileCreated result
  | SelectProfile profile => handleSelectProfile profile
  | Analyze profile => handleAnalyze profile
  | BackToList => handleBackToList
  end.

Definition step (st : State) (ev : event) : State := run (effects ev) st.

Definition steps (evs : list event) (st : State) : State := foldl step st evs.

(** What the router maintains: in the profile view the selected profile has
    a truthy [id]. *)
Definition selected_has_id (st : State) : Prop :=
  view st = profile_view ->
  truthy (field (own (selectedProfile st)) "id") = true.

(** Whether the handler behind an event assigns [selectedProfile]: if it
    does not, the next render reads the props of the child from the same
    object as the last one. *)
Definition reassigns (ev : event) : bool :=
  existsb (fun e => match e with setSelectedProfile _ => true | _ => false end)
    (effects ev).

(** The text of the connectivity indicator of the header. *)
Definition indicator (st : State) : string :=
  match apiStatus st with
  | connected => "Connected"
  | _ => "Disconnected"
  end.

(** Whether the header shows 'Back to Profiles': [view !== 'list']. *)
Definition back_button (st : State) : bool :=
  match view st with
  | list_view => false
  | _ => true
  end.

(** The events that are not the settlement of the health probe. *)
Definition is_navigation (ev : event) : bool :=
  match ev with
  | HealthSettled _ => false
  | _ => true
  end.

(** [onAnalyze] is called from a rendered dashboard, whose profile is
    truthy: the events whose [Analyze] carries such a profile. *)
Definition from_rendered_tree (ev : event) : bool :=
  match ev with
  | Analyze profile => truthy profile
  | _ => true
  end.

End App.

(** ** The mounted tree: App and the child it renders

    React keeps the state of a component with the mounted instance: each
    mount creates an instance with fresh state, the setters a handler closes
    over are those of its own instance, and a setter of an instance that has
    been unmounted changes nothing.  App renders at most one child under
    [<main>]; a child whose component is the one already rendered there is
    kept and receives the new props, any other is unmounted and replaced.
    The events are the calls into App and the settlement of the requests an
    instance has issued; what the user does inside a child changes the state
    of that child only and is left to the modules above. *)

Module System.
Import JS.

Inductive Component : Type :=
| ProfileList_ (s : ProfileList.State)
| ProfileForm_ (s : ProfileForm.State)
| ProfileDisplay_ (i : ProfileDisplay.Instance)
| AnalysisChat_ (p : AnalysisChat.Props) (s : AnalysisChat.State).

Record State : Type := {
  app : App.State;
  fibers : gmap nat Component;   (* the mounted instances, by identity *)
  child : option nat;            (* the instance rendered under <main> *)
  next : nat                     (* the number of instances created so far *)
}.

Definition create (el : App.element) : Component :=
  match el with
  | App.list_element =>
      ProfileList_ (ProfileList.run ProfileList.loadProfiles ProfileList.initial)
  | App.form_element => ProfileForm_ ProfileForm.initial
  | App.display_element id =>
      ProfileDisplay_ (ProfileDisplay.mount {| ProfileDisplay.profileId := id |})
  | App.chat_element profile =>
      AnalysisChat_ {| AnalysisChat.profile := own profile |} AnalysisChat.initial
  end.

(** The child kept by a render.  A dashboard rendered from the same
    [selectedProfile] as before ([reassigned = false]) receives the very
    [profileId] it has, and its effect does not run.  Rendered from another
    one it receives the [profileId] read from that one, taken for another
    object when it is one, and the effect runs if it differs; the handlers
    that assign [selectedProfile] are not within reach of a mounted
    dashboard that stays, so that no run of the application comes here
    ([session_step] below). *)
Definition update (reassigned : bool) (el : App.element) (c : Component)
  : option Component :=
  match el, c with
  | App.list_element, ProfileList_ _ => Some c
  | App.form_element, ProfileForm_ _ => Some c
  | App.display_element id, ProfileDisplay_ i =>
      if reassigned then
        Some (ProfileDisplay_
                (ProfileDisplay.step i
                   (ProfileDisplay.Rendered
                      {| ProfileDisplay.profileId := id |} false)))
      else Some c
  | App.chat_element profile, AnalysisChat_ _ s =>
      Some (AnalysisChat_ {| AnalysisChat.profile := own profile |} s)
  | _, _ => None
  end.

Definition unmount (st : State) : gmap nat Component :=
  match child st with
  | Some i => delete i (fibers st)
  | None => fibers st
  end.

(** The render that follows a change of the state of App. *)
Definition commit (reassigned : bool) (a : App.State) (st : State) : State :=
  let kept :=
    i ← child st; c ← fibers st !! i; el ← App.main a;
    c' ← update reassigned el c;
    Some (i, c') in
  match kept with
  | Some (i, c') =>
      {| app := a; fibers := <[i := c']> (fibers st); child := Some i;
         next := next st |}
  | None =>
      match App.main a with
      | Some el =>
          {| app := a; fibers := <[next st := create el]> (unmount st);
             child := Some (next st); next := S (next st) |}
      | None =>
          {| app := a; fibers := unmount st; child := None; next := next st |}
      end
  end.

Definition initial : State :=
  {| app := App.initial;
     fibers := {[ 0%nat := create App.list_element ]};
     child := Some 0%nat;
     next := 1 |}.

Inductive event : Type :=
| AppEvent (e : App.event)
| ProfilesListed (i : nat) (o : outcome)
| ProfileLoaded (i : nat) (o : outcome)
| DashboardAnalyzed (i : nat) (o : outcome)
| ChatAnalyzed (i : nat) (o : outcome) (now : Z).

(** The continuation a settlement resumes, on the instance that awaits. *)
Definition resume (ev : event) (c : Component) : Component :=
  match ev, c with
  | ProfilesListed _ o, ProfileList_ s =>
      ProfileList_ (ProfileList.run (ProfileList.loadProfiles_settled o).1 s)
  | ProfileLoaded _ o, ProfileDisplay_ i =>
      ProfileDisplay_ (ProfileDisplay.step i (ProfileDisplay.ProfileSettled o))
  | DashboardAnalyzed _ o, ProfileDisplay_ i =>
      ProfileDisplay_ (ProfileDisplay.step i (ProfileDisplay.AnalysisSettled o))
  | ChatAnalyzed _ o now, AnalysisChat_ p s =>
      AnalysisChat_ p (AnalysisChat.step p s (AnalysisChat.Settled o now))
  | _, _ => c
  end.

Definition step (st : State) (ev : event) : State :=
  match ev with
  | AppEvent e => commit (App.reassigns e) (App.step (app st) e) st
  | ProfilesListed i _ | ProfileLoaded i _ | DashboardAnalyzed i _
  | ChatAnalyzed i _ _ =>
      {| app := app st; fibers := alter (resume ev) i (fibers st);
         child := child st; next := next st |}
  end.

Definition steps (evs : list event) (st : State) : State := foldl step st evs.















End System.

(** ** Concrete inputs *)

Module Examples.
Import JS.

Definition chat_props : AnalysisChat.Props :=
  {| AnalysisChat.profile := {[ "id" := Str "p1"; "name" := Str "Ada" ]} |}.

(** A chat with a query typed and no target role. *)
Definition chat_without_role : AnalysisChat.State :=
  {| AnalysisChat.messages := [];
     AnalysisChat.input := "move into leadership";
     AnalysisChat.loading := false;
     AnalysisChat.targetRole := "" |}.

(** A chat ready to submit. *)
Definition chat_ready : AnalysisChat.State :=
  {| AnalysisChat.messages := [];
     AnalysisChat.input := "move into leadership";
     AnalysisChat.loading := false;
     AnalysisChat.targetRole := "Senior Architect" |}.

(** The error axios rejects with when the service answers 404 with the
    payload [{detail: "profile not found"}]. *)
Definition not_found : value :=
  Obj {[ "message" := Str "Request failed with status code 404";
         "response" :=
           Obj {[ "status" := Num 404;
                  "data" := Obj {[ "detail" := Str "profile not found" ]} ]} ]}.

(** A form with a pending skill and a pending certification made of
    spaces. *)
Definition form_with_blanks : ProfileForm.State :=
  {| ProfileForm.formData :=
       {| ProfileForm.name := "Ada"; ProfileForm.current_role := "Engineer";
          ProfileForm.skills :=
            [ {| Skill.name := "Rocq"; Skill.proficiency := "expert";
                 Skill.years_experience := 5 |} ];
          ProfileForm.certifications := [ "AWS" ];
          ProfileForm.experience_years := 7 |};
     ProfileForm.newSkill :=
       {| Skill.name := "   "; Skill.proficiency := "advanced";
          Skill.years_experience := 2 |};
     ProfileForm.newCert := "  ";
     ProfileForm.loading := false;
     ProfileForm.error := Null |}.

(** The props App passes to the list. *)
Definition list_props : ProfileList.Props :=
  {| ProfileList.onSelectProfile := true; ProfileList.onCreateNew := true |}.

(** A record of the list with its [id]. *)
Definition record_A : gmap string value :=
  {[ "id" := Str "A"; "name" := Str "Ann" ]}.


(** A record of the list that carries its identifier as [profile_id]. *)
Definition record_B : gmap string value :=
  {[ "profile_id" := Str "B"; "name" := Str "Bob" ]}.

(** A record of the list without identifier. *)
Definition record_anonymous : gmap string value := {[ "name" := Str "Eve" ]}.

Definition profile_A : value := Obj {[ "id" := Str "A"; "name" := Str "Ann" ]}.
Definition profile_B : value := Obj {[ "id" := Str "B"; "name" := Str "Bob" ]}.

(** A form with one skill and one certification entered and a second skill
    pending. *)
Definition form_with_pending : ProfileForm.State :=
  {| ProfileForm.formData :=
       {| ProfileForm.name := "Ada"; ProfileForm.current_role := "Engineer";
          ProfileForm.skills :=
            [ {| Skill.name := "Rocq"; Skill.proficiency := "expert";
                 Skill.years_experience := 5 |} ];
          ProfileForm.certifications := [ "AWS" ];
          ProfileForm.experience_years := 7 |};
     ProfileForm.newSkill :=
       {| Skill.name := "OCaml"; Skill.proficiency := "advanced";
          Skill.years_experience := 0 |};
     ProfileForm.newCert := "CKA";
     ProfileForm.loading := false;
     ProfileForm.error := Null |}.

Definition form_props : ProfileForm.Props :=
  {| ProfileForm.onSuccess := true; ProfileForm.onCancel := true |}.

(** A dashboard of profile "A", loaded, with a target role typed. *)
Definition dashboard_A : ProfileDisplay.Instance :=
  ProfileDisplay.steps
    [ ProfileDisplay.ProfileSettled (Resolved profile_A);
      ProfileDisplay.ToggleAnalysis;
      ProfileDisplay.ChangeTargetRole "Senior Architect" ]
    (ProfileDisplay.mount {| ProfileDisplay.profileId := Str "A" |}).

(** An analysis result with one weak skill. *)
Definition result_with_weak : value :=
  Obj {[ "analysis_summary" := Str "ok";
         "skills_weak" := Arr [ Obj {[ "skill_name" := Str "Rust" ]} ] ]}.

(** A list view that has loaded two records. *)
Definition list_of_two : ProfileList.State :=
  {| ProfileList.profiles := Arr [ profile_A; profile_B ];
     ProfileList.loading := false;
     ProfileList.error := Null |}.

(** A list view whose payload has a [null] entry. *)
Definition list_with_null : ProfileList.State :=
  {| ProfileList.profiles := Arr [ profile_A; Null ];
     ProfileList.loading := false;
     ProfileList.error := Null |}.

End Examples.

(** * Properties *)

(** ** Strings and error texts *)

Section JSFacts.
Import JS.

Lemma trimStart_empty s : trimStart s = "" <-> whitespace_only s.
Proof.
  unfold whitespace_only. induction s as [|c s IH]; simpl.
  - split; [constructor | reflexivity].
  - destruct (is_ws c) eqn:Hc.
    + rewrite IH. split; [by constructor | by inversion 1].
    + split; [discriminate | inversion 1; congruence].
Qed.

Lemma trimEnd_empty s : trimEnd s = "" <-> whitespace_only s.
Proof.
  unfold whitespace_only. induction s as [|c s IH]; simpl.
  - split; [constructor | reflexivity].
  - destruct (trimEnd s) eqn:Ht.
    + destruct (is_ws c) eqn:Hc.
      * split; [intros _; constructor; [done | by apply IH] | done].
      * split; [discriminate | inversion 1; congruence].
    + split; [discriminate |].
      inversion 1 as [|? ? _ Hs]; subst. by apply IH in Hs.
Qed.

Lemma trimStart_whitespace s :
  whitespace_only (trimStart s) <-> whitespace_only s.
Proof.
  unfold whitespace_only. induction s as [|c s IH]; simpl; [done |].
  destruct (is_ws c) eqn:Hc; [| done].
  rewrite IH. split; [by constructor | by inversion 1].
Qed.

Lemma blank_spec s : blank s = true <-> whitespace_only s.
Proof.
  unfold blank, trim. rewrite String.eqb_eq, trimEnd_empty.
  apply trimStart_whitespace.
Qed.

Lemma blank_false_nonempty s : blank s = false -> s <> "".
Proof. intros H ->. by vm_compute in H. Qed.

Lemma truthy_not_nullish v : truthy v = true -> nullish v = false.
Proof. by destruct v. Qed.

Lemma prop_not_nullish v k :
  nullish v = false -> exists x, prop v k = Ok x.
Proof.
  destruct v; try discriminate; intros _; simpl; eauto;
    destruct (String.eqb k "length"); eauto.
Qed.

Lemma opt_prop_detail v k x :
  opt_prop v k = Ok x -> truthy x = true -> prop v k = Ok x.
Proof.
  unfold opt_prop. destruct (nullish v); [| done].
  intros [= <-]. discriminate.
Qed.

Lemma opt_prop_total v k : exists x, opt_prop v k = Ok x.
Proof.
  unfold opt_prop. destruct (nullish v) eqn:Hv; [eauto |].
  by apply prop_not_nullish.
Qed.

Lemma opt_prop_of_prop v k x : prop v k = Ok x -> opt_prop v k = Ok x.
Proof. unfold opt_prop. by destruct v. Qed.

(** The chain of the [catch] blocks picks the text the precedence names. *)
Lemma error_text_chosen err fallback :
  nullish err = false ->
  exists text, error_text err fallback = Ok text /\
               chosen_text err fallback text.
Proof.
  intros Herr. unfold error_text.
  destruct (prop_not_nullish err "response" Herr) as [response Hr].
  destruct (prop_not_nullish err "message" Herr) as [message Hm].
  destruct (opt_prop_total response "data") as [data Hd].
  destruct (opt_prop_total data "detail") as [detail Hdt].
  rewrite Hr; simpl. rewrite Hd; simpl. rewrite Hdt; simpl.
  destruct (truthy detail) eqn:Ht.
  - exists detail. split; [done |]. apply by_detail.
    exists response, data. repeat split; try done.
    + destruct (nullish response) eqn:Hn.
      * unfold opt_prop in Hd, Hdt. rewrite Hn in Hd. injection Hd as <-.
        simpl in Hdt. injection Hdt as <-. discriminate.
      * unfold opt_prop in Hd. by rewrite Hn in Hd.
    + by apply opt_prop_detail.
  - assert (Hno : forall d, ~ payload_detail err d).
    { intros d (r' & d' & Hr' & Hd' & Hdt' & Htd).
      rewrite Hr in Hr'. injection Hr' as <-.
      apply opt_prop_of_prop in Hd'. rewrite Hd in Hd'. injection Hd' as <-.
      apply opt_prop_of_prop in Hdt'. rewrite Hdt in Hdt'.
      injection Hdt' as <-. congruence. }
    rewrite Hm; simpl. unfold or. destruct (truthy message) eqn:Htm.
    + exists message. split; [done |]. by apply by_message.
    + exists (Str fallback). split; [done |]. apply by_fallback; [done |].
      intros m [Hm' Htm']. rewrite Hm in Hm'. injection Hm' as <-. congruence.
Qed.

(** The precedence names one text. *)
Lemma chosen_text_unique err fallback t1 t2 :
  chosen_text err fallback t1 -> chosen_text err fallback t2 -> t1 = t2.
Proof.
  assert (Hd : forall a b, payload_detail err a -> payload_detail err b -> a = b).
  { intros a b (r1 & d1 & H1 & H2 & H3 & _) (r2 & d2 & H4 & H5 & H6 & _).
    congruence. }
  assert (Hm : forall a b, raw_text err a -> raw_text err b -> a = b).
  { intros a b [H1 _] [H2 _]. congruence. }
  destruct 1 as [d1 H1 | m1 Hn1 H1 | Hn1 Hm1];
    destruct 1 as [d2 H2 | m2 Hn2 H2 | Hn2 Hm2].
  - by apply Hd.
  - by destruct (Hn2 d1).
  - by destruct (Hn2 d1).
  - by destruct (Hn1 d2).
  - by apply Hm.
  - by destruct (Hm2 m1).
  - by destruct (Hn1 d2).
  - by destruct (Hm1 m2).
  - done.
Qed.

End JSFacts.

(** ** The chat session *)

Section ChatFacts.
Import JS AnalysisChat.

Lemma chat_run_app es1 es2 st : run (es1 ++ es2) st = run es2 (run es1 st).
Proof. apply foldl_app. Qed.

Lemma chat_steps_snoc p evs ev st :
  steps p (evs ++ [ev]) st = step p (steps p evs st) ev.
Proof. unfold steps. by rewrite foldl_app. Qed.

Lemma handleSend_refuses p st now :
  whitespace_only (input st) \/ whitespace_only (targetRole st) \/
  loading st = true ->
  handleSend p st now = [].
Proof.
  unfold handleSend. intros [H | [H | H]].
  - apply blank_spec in H. by rewrite H.
  - apply blank_spec in H. rewrite H. by rewrite orb_true_r.
  - rewrite H. by rewrite orb_true_r.
Qed.

Lemma handleSend_accepts p st now :
  blank (input st) = false -> blank (targetRole st) = false ->
  loading st = false ->
  handleSend p st now =
    [ setMessages (userMessage st now); setLoading true; setInput "";
      analyze (requestData p (input st) (targetRole st)) ].
Proof. unfold handleSend. by intros -> -> ->. Qed.

(** Every exit of the continuation of [handleSend] appends at most one
    message, of type assistant or error, and then resets [loading]. *)
Lemma handleSend_settled_shape o now :
  exists reply,
    (handleSend_settled o now).1 = (setMessages <$> reply) ++ [setLoading false] /\
    (length reply <= 1)%nat /\
    Forall (fun m => type m = assistant \/ type m = error) reply /\
    (reply = [] -> exists r, o = Rejected r /\ nullish r = true).
Proof.
  assert (Hcatch : forall err, nullish err = false ->
            exists m, handleSend_catch err now = Ok [setMessages m] /\
                      type m = error).
  { intros err Herr. unfold handleSend_catch.
    destruct (error_text_chosen err "Failed to analyze skills" Herr)
      as (text & -> & _).
    simpl. eauto. }
  unfold handleSend_settled. destruct o as [response | err].
  - destruct (nullish response) eqn:Hn.
    + destruct (Hcatch (TypeError response "analysis_summary") eq_refl)
        as (m & Hm & Hty).
      exists [m]. replace (handleSend_then response now)
        with (@Throw (list effect) (TypeError response "analysis_summary"))
        by (by destruct response).
      simpl. rewrite Hm. simpl. repeat split; auto.
      discriminate.
    + destruct (prop_not_nullish response "analysis_summary" Hn) as [x Hx].
      unfold handleSend_then. rewrite Hx. simpl.
      eexists [_]. simpl. repeat split; auto.
      discriminate.
  - destruct (nullish err) eqn:Hn.
    + exists []. replace (handleSend_catch err now)
        with (@Throw (list effect) (TypeError err "response"))
        by (by destruct err).
      simpl. repeat split; auto. eauto.
    + destruct (Hcatch err Hn) as (m & -> & Hty).
      exists [m]. simpl. repeat split; auto. discriminate.
Qed.

Lemma chat_run_setMessages reply st :
  messages (run (setMessages <$> reply) st) = messages st ++ reply /\
  loading (run (setMessages <$> reply) st) = loading st.
Proof.
  unfold run. revert st. induction reply as [|m reply IH]; intros st.
  - simpl. by rewrite app_nil_r.
  - rewrite fmap_cons. cbn [foldl].
    destruct (IH (apply st (setMessages m))) as [-> ->]. simpl.
    by rewrite <- app_assoc.
Qed.

(** No step of the chat removes, moves or changes a message. *)
Lemma chat_step_prefix p st ev :
  messages st `prefix_of` messages (step p st ev).
Proof.
  unfold step. destruct ev as [s | s | now | o now]; simpl.
  - done.
  - done.
  - unfold handleSend.
    destruct (blank (input st) || blank (targetRole st) || loading st);
      simpl; [done | by eexists].
  - destruct (handleSend_settled_shape o now) as (reply & -> & _).
    rewrite chat_run_app. simpl.
    destruct (chat_run_setMessages reply st) as [-> _]. by eexists.
Qed.

(** While a request is in flight, what the user does neither appends a
    message nor clears [loading]. *)
Lemma chat_ui_while_loading p evs st :
  Forall (fun ev => is_ui ev = true) evs -> loading st = true ->
  loading (steps p evs st) = true /\ messages (steps p evs st) = messages st.
Proof.
  intros Hui. revert st. induction Hui as [|ev evs Hev _ IH]; intros st Hl.
  - done.
  - simpl. assert (Hstep : loading (step p st ev) = true /\
                           messages (step p st ev) = messages st).
    { unfold step. destruct ev as [s | s | now | o now]; simpl; try done.
      rewrite handleSend_refuses; [done | auto]. }
    destruct Hstep as [Hl' Hm']. destruct (IH _ Hl') as [-> ->]. done.
Qed.

End ChatFacts.

(** ** Claims on the chat session *)

Section ChatClaims.
Import JS AnalysisChat.

(** C2. When the query or the target role is blank after trimming, or a
    request is in flight, [handleSend] does nothing at all: it performs no
    effect (no message appended, no request issued) and the state, with its
    [loading] flag and its input buffer, is the one before. *)
Theorem handleSend_precondition_noop p st now :
  whitespace_only (input st) \/ whitespace_only (targetRole st) \/
  loading st = true ->
  handleSend p st now = [] /\
  step p st (Send now) = st /\
  (forall req, analyze req ∉ handleSend p st now).
Proof.
  intros H. unfold step. simpl. rewrite (handleSend_refuses p st now H).
  repeat split. intros req Hin. by apply elem_of_nil in Hin.
Qed.

Lemma handleSend_precondition_noop_witness :
  (whitespace_only (input Examples.chat_without_role) \/
   whitespace_only (targetRole Examples.chat_without_role) \/
   loading Examples.chat_without_role = true) /\
  handleSend Examples.chat_props Examples.chat_without_role 0 = [] /\
  step Examples.chat_props Examples.chat_without_role (Send 0)
  = Examples.chat_without_role.
Proof.
  assert (H : whitespace_only (input Examples.chat_without_role) \/
              whitespace_only (targetRole Examples.chat_without_role) \/
              loading Examples.chat_without_role = true).
  { right; left. constructor. }
  split; [exact H |].
  destruct (handleSend_precondition_noop Examples.chat_props
              Examples.chat_without_role 0 H) as (H1 & H2 & _).
  split; [exact H1 | exact H2].
Defined.

(** C3. A submission that passes the preconditions sets [loading] before
    it issues the request, [loading] stays set while the request is in
    flight, and every exit of the continuation (fulfilled, rejected, or an
    exception thrown on the way) ends with [setLoading(false)]: once the
    request has settled [loading] is false. *)
Theorem busy_always_clears p st now evs o now' :
  blank (input st) = false -> blank (targetRole st) = false ->
  loading st = false ->
  Forall (fun ev => is_ui ev = true) evs ->
  (exists u req,
     handleSend p st now =
       [ setMessages u; setLoading true; setInput ""; analyze req ]) /\
  loading (step p st (Send now)) = true /\
  loading (steps p evs (step p st (Send now))) = true /\
  last (handleSend_settled o now').1 = Some (setLoading false) /\
  (forall st', loading (step p st' (Settled o now')) = false).
Proof.
  intros Hi Ht Hl Hui.
  assert (Hsent : loading (step p st (Send now)) = true).
  { unfold step. simpl. by rewrite handleSend_accepts. }
  destruct (handleSend_settled_shape o now') as (reply & Hshape & _).
  repeat split.
  - rewrite handleSend_accepts by done. eauto.
  - done.
  - by apply chat_ui_while_loading.
  - rewrite Hshape. apply last_snoc.
  - intros st'. unfold step. simpl. rewrite Hshape, chat_run_app. done.
Qed.

Lemma busy_always_clears_witness :
  loading (step Examples.chat_props Examples.chat_ready (Send 0)) = true /\
  loading (step Examples.chat_props
             (steps Examples.chat_props [ChangeInput "next"]
                (step Examples.chat_props Examples.chat_ready (Send 0)))
             (Settled (Rejected Examples.not_found) 1)) = false.
Proof.
  destruct (busy_always_clears Examples.chat_props Examples.chat_ready 0
              [ChangeInput "next"] (Rejected Examples.not_found) 1)
    as (_ & H1 & _ & _ & H2).
  - reflexivity.
  - reflexivity.
  - reflexivity.
  - repeat constructor.
  - split; [exact H1 | apply H2].
Defined.

(** C4. When [analysisAPI.analyze] rejects, the message appended has type
    error and its text is chosen by precedence: the [detail] of the payload
    of the response when there is one (a truthy one), else the [message] of
    the error, else 'Failed to analyze skills'.  A rejection whose payload
    is [{detail: "profile not found"}] gives exactly that text. *)
Theorem error_message_precedence err now :
  nullish err = false ->
  (exists text,
     chosen_text err "Failed to analyze skills" text /\
     handleSend_settled (Rejected err) now =
       ([ setMessages {| type := error; content := text; report := None;
                         timestamp := now |};
          setLoading false ], None)) /\
  (forall response payload,
     prop err "response" = Ok response ->
     prop response "data" = Ok payload ->
     prop payload "detail" = Ok (Str "profile not found") ->
     forall p st,
       messages (step p st (Settled (Rejected err) now)) =
       messages st ++ [ {| type := error; content := Str "profile not found";
                           report := None; timestamp := now |} ]).
Proof.
  intros Herr.
  destruct (error_text_chosen err "Failed to analyze skills" Herr)
    as (text & Htext & Hchosen).
  assert (Hsettled : handleSend_settled (Rejected err) now =
    ([ setMessages {| type := error; content := text; report := None;
                      timestamp := now |};
       setLoading false ], None)).
  { unfold handleSend_settled, handleSend_catch. by rewrite Htext. }
  split; [eauto |].
  intros response payload Hresponse Hdata Hdetail p st.
  assert (Hd : chosen_text err "Failed to analyze skills"
                 (Str "profile not found")).
  { apply by_detail. by exists response, payload. }
  rewrite (chosen_text_unique _ _ _ _ Hchosen Hd) in Hsettled.
  unfold step. simpl. by rewrite Hsettled.
Qed.

Lemma error_message_precedence_witness :
  nullish Examples.not_found = false /\
  messages (step Examples.chat_props Examples.chat_ready
              (Settled (Rejected Examples.not_found) 7)) =
    [ {| type := error; content := Str "profile not found"; report := None;
         timestamp := 7 |} ].
Proof.
  split; [reflexivity |].
  destruct (error_message_precedence Examples.not_found 7 eq_refl) as [_ H].
  apply (H (Obj {[ "status" := Num 404;
                   "data" := Obj {[ "detail" := Str "profile not found" ]} ]})
           (Obj {[ "detail" := Str "profile not found" ]}));
    reflexivity.
Defined.

(** C5. The message log only grows at its end: over any run of events the
    log before is a prefix of the log after.  For a submission that passes
    the preconditions the user message (type user, the query as its
    content) is appended by the first effect of [handleSend], before the
    request is issued, and after the settlement the log is the log before,
    the user message, and then the reply: one message of type assistant or
    error (none only when the rejection reason is [null] or
    [undefined]). *)
Theorem message_log_append_only p :
  (forall evs st, messages st `prefix_of` messages (steps p evs st)) /\
  (forall st now evs o now',
     blank (input st) = false -> blank (targetRole st) = false ->
     loading st = false ->
     Forall (fun ev => is_ui ev = true) evs ->
     (exists req,
        handleSend p st now =
          [ setMessages (userMessage st now); setLoading true; setInput "";
            analyze req ]) /\
     userMessage st now
     = {| type := user; content := Str (input st); report := None;
          timestamp := now |} /\
     messages (step p st (Send now)) = messages st ++ [userMessage st now] /\
     exists reply,
       messages (step p (steps p evs (step p st (Send now))) (Settled o now'))
       = messages st ++ userMessage st now :: reply /\
       (length reply <= 1)%nat /\
       Forall (fun m => type m = assistant \/ type m = error) reply /\
       (reply = [] -> exists r, o = Rejected r /\ nullish r = true)).
Proof.
  split.
  - intros evs. induction evs as [|ev evs IH] using rev_ind; intros st.
    + done.
    + rewrite chat_steps_snoc. etrans; [apply IH | apply chat_step_prefix].
  - intros st now evs o now' Hi Ht Hl Hui.
    assert (Hsent : messages (step p st (Send now))
                    = messages st ++ [userMessage st now] /\
                    loading (step p st (Send now)) = true).
    { unfold step. simpl. by rewrite handleSend_accepts. }
    destruct Hsent as [Hm Hl'].
    split; [rewrite handleSend_accepts by done; eauto |].
    split; [reflexivity |]. split; [done |].
    destruct (handleSend_settled_shape o now') as (reply & Hshape & Hrest).
    exists reply. split; [| exact Hrest].
    destruct (chat_ui_while_loading p evs _ Hui Hl') as [_ Hsame].
    unfold step at 1. simpl. rewrite Hshape, chat_run_app. simpl.
    destruct (chat_run_setMessages reply
                (steps p evs (step p st (Send now)))) as [-> _].
    rewrite Hsame, Hm. by rewrite <- app_assoc.
Qed.

Lemma message_log_append_only_witness :
  type (userMessage Examples.chat_ready 0) = user /\
  exists reply,
    messages (step Examples.chat_props
                (steps Examples.chat_props [ChangeInput "next"]
                   (step Examples.chat_props Examples.chat_ready (Send 0)))
                (Settled (Rejected Examples.not_found) 1))
    = messages Examples.chat_ready
      ++ userMessage Examples.chat_ready 0 :: reply /\
    length reply = 1%nat.
Proof.
  destruct (message_log_append_only Examples.chat_props) as [_ H].
  destruct (H Examples.chat_ready 0 [ChangeInput "next"]
              (Rejected Examples.not_found) 1)
    as (_ & Huser & _ & reply & Hlog & Hlen & _ & Hnil).
  - reflexivity.
  - reflexivity.
  - reflexivity.
  - repeat constructor.
  - split; [by rewrite Huser |].
    exists reply. split; [exact Hlog |].
    destruct reply as [|m [|m' reply]].
    + destruct (Hnil eq_refl) as (r & Hr & Hn). injection Hr as <-.
      discriminate Hn.
    + reflexivity.
    + simpl in Hlen. lia.
Defined.

End ChatClaims.

(** ** Claims on the requests issued *)

Section RequestClaims.
Import JS.

Lemma or_str_nonempty a b : b <> "" -> or_str a b <> "".
Proof.
  unfold or_str. destruct (String.eqb a "") eqn:Ha; [done |].
  intros _. by apply String.eqb_neq.
Qed.

Lemma chat_request_role_name p query role :
  AnalysisChat.role_name (AnalysisChat.requestData p query role)
  = Ok (Str role).
Proof. reflexivity. Qed.

(** C7. Every request [handleSend] (chat) or [handleAnalyze] (dashboard)
    passes to [analysisAPI.analyze] has a string for
    [target_role.role_name], and that string is not empty. *)
Theorem issued_analysis_has_role_name req :
  (exists p st now,
     AnalysisChat.analyze req ∈ AnalysisChat.handleSend p st now) \/
  (exists p st,
     ProfileDisplay.analyze req ∈ ProfileDisplay.handleAnalyze p st) ->
  exists s, AnalysisChat.role_name req = Ok (Str s) /\ s <> "".
Proof.
  intros [(p & st & now & Hin) | (p & st & Hin)].
  - unfold AnalysisChat.handleSend in Hin.
    destruct (blank (AnalysisChat.input st)) eqn:Hi; simpl in Hin;
      [by apply elem_of_nil in Hin |].
    destruct (blank (AnalysisChat.targetRole st)) eqn:Ht; simpl in Hin;
      [by apply elem_of_nil in Hin |].
    destruct (AnalysisChat.loading st); simpl in Hin;
      [by apply elem_of_nil in Hin |].
    apply list_elem_of_In in Hin. simpl in Hin.
    destruct Hin as [H | [H | [H | [H | []]]]]; try discriminate.
    injection H as <-. exists (AnalysisChat.targetRole st).
    split; [apply chat_request_role_name | by apply blank_false_nonempty].
  - unfold ProfileDisplay.handleAnalyze in Hin.
    destruct (truthy (ProfileDisplay.profileId p)); simpl in Hin.
    + apply list_elem_of_In in Hin. simpl in Hin.
      destruct Hin as [H | [H | [H | [H | []]]]]; try discriminate.
      injection H as <-.
      exists (or_str (ProfileDisplay.targetRole st) "Target Role").
      split; [reflexivity | by apply or_str_nonempty].
    + apply list_elem_of_In in Hin. simpl in Hin.
      destruct Hin as [H | []]. discriminate.
Qed.

Lemma issued_analysis_has_role_name_witness :
  AnalysisChat.analyze
    (AnalysisChat.requestData Examples.chat_props "move into leadership"
       "Senior Architect")
  ∈ AnalysisChat.handleSend Examples.chat_props Examples.chat_ready 0 /\
  exists s,
    AnalysisChat.role_name
      (AnalysisChat.requestData Examples.chat_props "move into leadership"
         "Senior Architect") = Ok (Str s) /\ s <> "".
Proof.
  assert (Hin : AnalysisChat.analyze
            (AnalysisChat.requestData Examples.chat_props
               "move into leadership" "Senior Architect")
          ∈ AnalysisChat.handleSend Examples.chat_props Examples.chat_ready 0).
  { apply list_elem_of_In. simpl. auto. }
  split; [exact Hin |].
  apply issued_analysis_has_role_name. left.
  exists Examples.chat_props, Examples.chat_ready, 0. exact Hin.
Defined.

End RequestClaims.

(** ** Claims on the modal and on the form *)

Section ModalClaims.
Import JS ProfileDisplay.

(** C8. [handleShowSkills] called with no list ([undefined] or [null]) or
    with the empty list leaves the state of the dashboard as it is, so the
    modal does not open, and shows the notice "No <title in lower case>
    found." (for 'Skills Weak' the notice contains "skills weak").  Called
    with a non-empty list it sets the skills, the title and the open flag of
    the modal. *)
Theorem modal_empty_open_guard st title :
  (forall skills, skills ∈ [Undefined; Null; Arr []] ->
     handleShowSkills skills title
       = [ alert ("No " +:+ toLowerCase title +:+ " found.") ] /\
     run (handleShowSkills skills title) st = st /\
     contains ("No " +:+ toLowerCase title +:+ " found.") (toLowerCase title)) /\
  handleShowSkills (Arr []) "Skills Weak" = [ alert "No skills weak found." ] /\
  (forall x l,
     let st' := run (handleShowSkills (Arr (x :: l)) title) st in
     modalSkills st' = Arr (x :: l) /\ modalTitle st' = title /\
     showSkillsModal st' = true).
Proof.
  split; [| split].
  - intros skills Hin. apply list_elem_of_In in Hin. simpl in Hin.
    assert (Heffects : handleShowSkills skills title
              = [ alert ("No " +:+ toLowerCase title +:+ " found.") ]).
    { destruct Hin as [<- | [<- | [<- | []]]]; reflexivity. }
    rewrite Heffects. repeat split.
    by exists "No ", " found.".
  - reflexivity.
  - intros x l st'. subst st'.
    assert (Heffects : handleShowSkills (Arr (x :: l)) title
              = [ setModalSkills (Arr (x :: l)); setModalTitle title;
                  setShowSkillsModal true ]).
    { unfold handleShowSkills, length_is_0. simpl.
      by destruct (Z.of_nat (S (length l))) eqn:E. }
    by rewrite Heffects.
Qed.

Lemma modal_empty_open_guard_witness :
  Arr [] ∈ [Undefined; Null; Arr []] /\
  run (handleShowSkills (Arr []) "Skills Weak") initial = initial /\
  showSkillsModal (run (handleShowSkills (Arr []) "Skills Weak") initial)
  = false.
Proof.
  assert (Hin : Arr [] ∈ [Undefined; Null; Arr []]).
  { apply list_elem_of_In. simpl. auto. }
  split; [exact Hin |].
  destruct (modal_empty_open_guard initial "Skills Weak") as [H _].
  destruct (H (Arr []) Hin) as (_ & Hsame & _).
  split; [exact Hsame | by rewrite Hsame].
Defined.

End ModalClaims.

Section FormClaims.
Import JS ProfileForm.

(** C9. With a pending skill whose name is empty or white space only,
    [handleAddSkill] performs no effect; with a pending certification that
    is empty or white space only, neither does [handleAddCert]: the state
    of the form, and with it the skills and the certifications, stays as it
    is. *)
Theorem blank_entry_add_noop st :
  (whitespace_only (Skill.name (newSkill st)) ->
   let st' := run (handleAddSkill st) st in
   handleAddSkill st = [] /\ st' = st /\
   skills (formData st') = skills (formData st) /\
   certifications (formData st') = certifications (formData st)) /\
  (whitespace_only (newCert st) ->
   let st' := run (handleAddCert st) st in
   handleAddCert st = [] /\ st' = st /\
   skills (formData st') = skills (formData st) /\
   certifications (formData st') = certifications (formData st)).
Proof.
  split; intros H st'; subst st'; apply blank_spec in H.
  - unfold handleAddSkill. by rewrite H.
  - unfold handleAddCert. by rewrite H.
Qed.

End FormClaims.

Lemma blank_entry_add_noop_witness :
  (JS.whitespace_only
     (Skill.name (ProfileForm.newSkill Examples.form_with_blanks)) /\
   ProfileForm.run (ProfileForm.handleAddSkill Examples.form_with_blanks)
     Examples.form_with_blanks = Examples.form_with_blanks) /\
  (JS.whitespace_only (ProfileForm.newCert Examples.form_with_blanks) /\
   ProfileForm.run (ProfileForm.handleAddCert Examples.form_with_blanks)
     Examples.form_with_blanks = Examples.form_with_blanks).
Proof.
  assert (Hs : JS.whitespace_only
                 (Skill.name (ProfileForm.newSkill Examples.form_with_blanks))).
  { repeat constructor. }
  assert (Hc : JS.whitespace_only
                 (ProfileForm.newCert Examples.form_with_blanks)).
  { repeat constructor. }
  destruct (blank_entry_add_noop Examples.form_with_blanks) as [H1 H2].
  split; (split; [assumption |]).
  - exact (proj1 (proj2 (H1 Hs))).
  - exact (proj1 (proj2 (H2 Hc))).
Defined.

(** ** Claims on the list view and on the router *)

Section ListClaims.
Import JS ProfileList.

Lemma list_steps_snoc p evs ev st :
  steps p (evs ++ [ev]) st = step p (steps p evs st) ev.
Proof. unfold steps. by rewrite foldl_app. Qed.

Lemma list_step_isArray p st ev :
  isArray (profiles st) = true -> isArray (profiles (step p st ev)) = true.
Proof.
  intros H. unfold step. destruct ev as [| [data | err] | c]; simpl.
  - done.
  - by destruct (isArray data) eqn:E.
  - unfold loadProfiles_settled.
    by destruct (error_text err "Failed to load profiles").
  - unfold onClick. by destruct (onSelectProfile p && truthy (profileId c)).
Qed.

(** C10. The [profiles] state of the list view is an array after any run of
    events: the only assignment stores the payload of [profileAPI.list()]
    when it is an array and [[]] when it is not.  After a load that resolves
    with a payload that is not an array, the view renders the 'No profiles
    found' state. *)
Theorem list_payload_totality p :
  (forall evs, isArray (profiles (steps p evs initial)) = true) /\
  (forall st data,
     isArray data = false ->
     let st' := step p (step p st Mounted) (Settled (Resolved data)) in
     profiles st' = Arr [] /\ render st' = Ok NoProfilesFound) /\
  (forall st l, profiles (step p st (Settled (Resolved (Arr l)))) = Arr l).
Proof.
  split; [| split].
  - intros evs. induction evs as [|ev evs IH] using rev_ind; [done |].
    rewrite list_steps_snoc. by apply list_step_isArray.
  - intros st data Hdata st'. subst st'. unfold step. simpl.
    by rewrite Hdata.
  - done.
Qed.

Lemma list_payload_totality_witness :
  isArray (Str "oops") = false /\
  render (step Examples.list_props (step Examples.list_props initial Mounted)
            (Settled (Resolved (Str "oops")))) = Ok NoProfilesFound.
Proof.
  split; [reflexivity |].
  destruct (list_payload_totality Examples.list_props) as (_ & H & _).
  exact (proj2 (H initial (Str "oops") eq_refl)).
Defined.

End ListClaims.

Section RouterClaims.
Import JS App.

Lemma app_steps_snoc evs ev st : steps (evs ++ [ev]) st = step (steps evs st) ev.
Proof. unfold steps. by rewrite foldl_app. Qed.

Lemma selected_has_id_step st ev :
  selected_has_id st -> selected_has_id (step st ev).
Proof.
  intros Hinv. unfold selected_has_id, step.
  destruct ev as [[?|?] | | result | record | profile |]; simpl;
    try done; try apply Hinv.
  unfold handleSelectProfile.
  destruct (truthy (or (field record "id") (field record "profile_id")))
    eqn:Hid; simpl; [| apply Hinv].
  intros _. unfold field. by rewrite lookup_insert_eq.
Qed.

Lemma selected_has_id_main st id :
  selected_has_id st -> main st = Some (display_element id) ->
  truthy id = true.
Proof.
  unfold selected_has_id, main. intros Hinv.
  destruct (view st); try discriminate.
  - destruct (truthy (selectedProfile st)); [| discriminate].
    intros [= <-]. specialize (Hinv eq_refl). unfold or. by rewrite !Hinv.
  - by destruct (truthy (selectedProfile st)).
Qed.

Lemma handleSelectProfile_enters st record :
  truthy (or (field record "id") (field record "profile_id")) = true ->
  view (step st (SelectProfile record)) = profile_view /\
  main (step st (SelectProfile record))
  = Some (display_element (or (field record "id") (field record "profile_id"))).
Proof.
  intros Hid.
  assert (Hstep : step st (SelectProfile record) =
            {| view := profile_view;
               selectedProfile :=
                 Obj (<["id" := or (field record "id")
                                   (field record "profile_id")]> record);
               apiStatus := apiStatus st |}).
  { unfold step, effects, handleSelectProfile. by rewrite Hid. }
  rewrite Hstep. split; [done |].
  remember (or (field record "id") (field record "profile_id")) as id.
  unfold main. simpl.
  replace (field (<["id" := id]> record) "id") with id
    by (unfold field; by rewrite lookup_insert_eq).
  unfold or. by rewrite !Hid.
Qed.

Lemma card_of_record record c :
  ProfileList.card_of record = Ok c ->
  exists id profile_id,
    prop record "id" = Ok id /\ prop record "profile_id" = Ok profile_id /\
    ProfileList.profile c = record /\
    ProfileList.profileId c = or id profile_id.
Proof.
  intros Hc. destruct (nullish record) eqn:Hn.
  { by destruct record. }
  destruct (prop_not_nullish record "id" Hn) as [id Hid].
  destruct (prop_not_nullish record "profile_id" Hn) as [pid Hpid].
  exists id, pid. split; [done |]. split; [done |].
  unfold ProfileList.card_of in Hc. rewrite Hid in Hc. simpl in Hc.
  unfold or. destruct (truthy id); simpl in Hc.
  - by injection Hc as <-.
  - rewrite Hpid in Hc. simpl in Hc. by injection Hc as <-.
Qed.

Lemma cards_of_records l cards :
  mapM ProfileList.card_of l = Ok cards ->
  Forall2 (fun record c => ProfileList.card_of record = Ok c) l cards.
Proof.
  revert cards. induction l as [|record l IH]; intros cards; simpl.
  - intros [= <-]. constructor.
  - destruct (ProfileList.card_of record) as [c|] eqn:Hc; [| done]. simpl.
    destruct (mapM ProfileList.card_of l) as [cs|]; [| done]. simpl.
    intros [= <-]. constructor; [done | by apply IH].
Qed.

(** C6. The cards of the list are computed from its records, each with
    [profileId = profile.id || profile.profile_id].  A click on a card calls
    [onSelectProfile] only when that identifier is truthy, and alerts
    otherwise.  [handleSelectProfile] enters the profile view only for a
    record with such an identifier, and the dashboard then receives that
    identifier as [profileId]; otherwise it alerts and leaves the state of
    the router as it is.  Over any run of the router, the [profileId] a
    rendered dashboard receives is truthy. *)
Theorem profile_selection_id_guard :
  (forall st cards,
     ProfileList.render st = Ok (ProfileList.Grid cards) ->
     exists l,
       ProfileList.profiles st = Arr l /\
       Forall2 (fun record c => ProfileList.card_of record = Ok c) l cards) /\
  (forall props record c,
     ProfileList.onSelectProfile props = true ->
     ProfileList.card_of record = Ok c ->
     exists id profile_id,
       prop record "id" = Ok id /\ prop record "profile_id" = Ok profile_id /\
       ProfileList.profile c = record /\
       ProfileList.profileId c = or id profile_id /\
       (truthy (or id profile_id) = true ->
        ProfileList.onClick props c =
          [ ProfileList.select (<["id" := or id profile_id]> (own record)) ] /\
        forall st,
          main (step st (SelectProfile
                           (<["id" := or id profile_id]> (own record))))
          = Some (display_element (or id profile_id))) /\
       (truthy (or id profile_id) = false ->
        ProfileList.onClick props c =
          [ ProfileList.console_error record;
            ProfileList.alert "Error: Profile ID not found" ])) /\
  (forall st record,
     let id := or (field record "id") (field record "profile_id") in
     (truthy id = true ->
      view (step st (SelectProfile record)) = profile_view /\
      main (step st (SelectProfile record)) = Some (display_element id)) /\
     (truthy id = false ->
      handleSelectProfile record =
        [ console_error (Obj record);
          alert "Error: Profile ID not found. Please try again." ] /\
      step st (SelectProfile record) = st)) /\
  (forall evs id,
     main (steps evs initial) = Some (display_element id) -> truthy id = true).
Proof.
  split; [| split; [| split]].
  - intros st cards. unfold ProfileList.render.
    destruct (ProfileList.loading st); [done |].
    destruct (truthy (ProfileList.error st)); [done |].
    destruct (prop (ProfileList.profiles st) "length") as [len|]; [| done].
    simpl. destruct (ProfileList.profiles st) as [| | | | | l |] eqn:Hp;
      destruct len as [| | | [| |] | | |]; try done.
    all: destruct (mapM ProfileList.card_of l) as [cs|] eqn:Hcs; [| done].
    all: simpl; intros [= <-]; exists l; split; [done |].
    all: by apply cards_of_records.
  - intros props record c Hprops Hc.
    destruct (card_of_record record c Hc) as (id & pid & Hid & Hpid & Hp & Hi).
    exists id, pid. split; [done |]. split; [done |]. split; [done |].
    split; [done |]. unfold ProfileList.onClick. rewrite Hprops, Hp, Hi.
    split; intros Ht; rewrite Ht; simpl; [| done].
    split; [done |]. intros st.
    assert (Hsame : or (field (<["id" := or id pid]> (own record)) "id")
                       (field (<["id" := or id pid]> (own record))
                          "profile_id")
                    = or id pid).
    { replace (field (<["id" := or id pid]> (own record)) "id")
        with (or id pid) by (unfold field; by rewrite lookup_insert_eq).
      unfold or at 1. by rewrite Ht. }
    destruct (handleSelectProfile_enters st
                (<["id" := or id pid]> (own record))) as [_ Hmain].
    + by rewrite Hsame.
    + by rewrite Hmain, Hsame.
  - intros st record id. split; intros Hid.
    + by apply handleSelectProfile_enters.
    + unfold step. simpl. unfold handleSelectProfile. fold id.
      rewrite Hid. simpl. split; [done | by destruct st].
  - intros evs id. apply selected_has_id_main.
    induction evs as [|ev evs IH] using rev_ind; [by intros [=] |].
    rewrite app_steps_snoc. by apply selected_has_id_step.
Qed.

Lemma profile_selection_id_guard_witness :
  (truthy (or (field Examples.record_B "id")
              (field Examples.record_B "profile_id")) = true /\
   main (step initial (SelectProfile Examples.record_B))
   = Some (display_element (Str "B"))) /\
  (truthy (or (field Examples.record_anonymous "id")
              (field Examples.record_anonymous "profile_id")) = false /\
   step initial (SelectProfile Examples.record_anonymous) = initial).
Proof.
  destruct profile_selection_id_guard as (_ & _ & H & _).
  split.
  - split; [reflexivity |].
    exact (proj2 (proj1 (H initial Examples.record_B) eq_refl)).
  - split; [reflexivity |].
    exact (proj2 (proj2 (H initial Examples.record_anonymous) eq_refl)).
Defined.

End RouterClaims.

(** ** The mounted tree *)

Section SystemFacts.
Import JS System.














End SystemFacts.

(** ** Claims on late responses *)

Section StaleClaims.
Import JS System.

(** The dashboard has no test of its own.  Were it mounted for profile "A"
    and, before [profileAPI.get("A")] settles, rendered with
    [profileId = "B"], the late response for "A" would be applied to the
    dashboard of "B".  App never renders a mounted dashboard with another
    [profileId]: see [session_run] below. *)
Lemma stale_profile_response_overwrites :
  let shown :=
    ProfileDisplay.steps
      [ ProfileDisplay.Rendered {| ProfileDisplay.profileId := Str "B" |}
          false;
        ProfileDisplay.ProfileSettled (Resolved Examples.profile_B) ]
      (ProfileDisplay.mount {| ProfileDisplay.profileId := Str "A" |}) in
  let late :=
    ProfileDisplay.step shown
      (ProfileDisplay.ProfileSettled (Resolved Examples.profile_A)) in
  ProfileDisplay.profileId (ProfileDisplay.props shown) = Str "B" /\
  ProfileDisplay.profile (ProfileDisplay.state shown) = Examples.profile_B /\
  ProfileDisplay.profileId (ProfileDisplay.props late) = Str "B" /\
  ProfileDisplay.profile (ProfileDisplay.state late) = Examples.profile_A /\
  late <> shown.
Proof.
  repeat split; try reflexivity.
  intros Heq.
  apply (f_equal (fun i =>
           prop (ProfileDisplay.profile (ProfileDisplay.state i)) "id")) in Heq.
  vm_compute in Heq. discriminate.
Qed.


End StaleClaims.

(** ** Claims on late responses, over the runs of the application *)

Section SessionClaims.
Import JS System.























End SessionClaims.

(** * Further properties of the components *)

(** ** The entries of the form *)

Section FormEntries.
Import JS ProfileForm.

Lemma filter_index_above {A} (k index : nat) (l : list A) :
  (index < k)%nat ->
  snd <$> List.filter (fun p => negb (Nat.eqb p.1 index))
            (imap (fun j x => ((k + j)%nat, x)) l)
  = l.
Proof.
  revert k. induction l as [|x l IH]; intros k Hlt; [done |].
  simpl. replace (k + 0 =? index)%nat with false
    by (symmetry; apply Nat.eqb_neq; lia).
  simpl. f_equal. rewrite <- (IH (S k)) at 2 by lia.
  do 2 f_equal. apply imap_ext. intros j y _. simpl. f_equal. lia.
Qed.

Lemma filter_index_shift {A} (k index : nat) (l : list A) :
  snd <$> List.filter (fun p => negb (Nat.eqb p.1 (k + index)))
            (imap (fun j x => ((k + j)%nat, x)) l)
  = delete index l.
Proof.
  revert k index. induction l as [|x l IH]; intros k index; [by destruct index |].
  simpl. destruct index as [|index].
  - rewrite !Nat.add_0_r, Nat.eqb_refl. simpl.
    rewrite <- (filter_index_above (S k) k l) at 2 by lia.
    do 2 f_equal. apply imap_ext. intros j y _. simpl. f_equal. lia.
  - replace (k + 0 =? k + S index)%nat with false
      by (symmetry; apply Nat.eqb_neq; lia).
    simpl. f_equal. rewrite <- (IH (S k) index).
    replace (k + S index)%nat with (S k + index)%nat by lia.
    do 2 f_equal. apply imap_ext. intros j y _. simpl. f_equal. lia.
Qed.

Lemma delete_past_end {A} (index : nat) (l : list A) :
  (length l <= index)%nat -> delete index l = l.
Proof.
  intros H. rewrite delete_take_drop, take_ge, drop_ge by lia.
  apply app_nil_r.
Qed.

Lemma filter_index_delete {A} (index : nat) (l : list A) :
  filter_index index l = delete index l.
Proof. apply (filter_index_shift 0 index l). Qed.

(** [handleRemoveSkill] and [handleRemoveCert] delete the entry at the
    index and nothing else: the entries before it stay in place, those after
    it move up by one, the other list and the pending entries are kept, and
    an index past the end leaves the form as it is. *)
Theorem remove_entry_by_index st index :
  let by_skill := run (handleRemoveSkill index st) st in
  let by_cert := run (handleRemoveCert index st) st in
  (skills (formData by_skill) = delete index (skills (formData st)) /\
   certifications (formData by_skill) = certifications (formData st) /\
   newSkill by_skill = newSkill st /\ newCert by_skill = newCert st) /\
  (certifications (formData by_cert)
   = delete index (certifications (formData st)) /\
   skills (formData by_cert) = skills (formData st) /\
   newSkill by_cert = newSkill st /\ newCert by_cert = newCert st) /\
  (forall j, (j < index)%nat ->
     skills (formData by_skill) !! j = skills (formData st) !! j /\
     certifications (formData by_cert) !! j
     = certifications (formData st) !! j) /\
  (forall j, (index <= j)%nat ->
     skills (formData by_skill) !! j = skills (formData st) !! S j /\
     certifications (formData by_cert) !! j
     = certifications (formData st) !! S j) /\
  ((length (skills (formData st)) <= index)%nat -> by_skill = st) /\
  ((length (certifications (formData st)) <= index)%nat -> by_cert = st).
Proof.
  intros by_skill by_cert. subst by_skill by_cert. simpl.
  rewrite !filter_index_delete.
  repeat split; try done.
  - by apply list_lookup_delete_lt.
  - by apply list_lookup_delete_lt.
  - by apply list_lookup_delete_ge.
  - by apply list_lookup_delete_ge.
  - intros H. rewrite delete_past_end by done. by destruct st as [[] ? ? ? ?].
  - intros H. rewrite delete_past_end by done. by destruct st as [[] ? ? ? ?].
Qed.

(** A pending skill or certification that is not blank is appended as it
    was typed and the pending entry is reset; removing the entry just added
    gives back the data of the form. *)
Theorem add_then_remove_round_trip st :
  (blank (Skill.name (newSkill st)) = false ->
   let added := run (handleAddSkill st) st in
   skills (formData added) = skills (formData st) ++ [newSkill st] /\
   newSkill added = emptySkill /\
   formData (run (handleRemoveSkill (length (skills (formData st))) added)
               added)
   = formData st) /\
  (blank (newCert st) = false ->
   let added := run (handleAddCert st) st in
   certifications (formData added)
   = certifications (formData st) ++ [newCert st] /\
   newCert added = "" /\
   formData (run (handleRemoveCert (length (certifications (formData st)))
                    added) added)
   = formData st).
Proof.
  split; intros H added; subst added.
  - unfold handleAddSkill. rewrite H. simpl.
    rewrite filter_index_delete.
    rewrite delete_middle, app_nil_r.
    by destruct st as [[] ? ? ? ?].
  - unfold handleAddCert. rewrite H. simpl.
    rewrite filter_index_delete.
    rewrite delete_middle, app_nil_r.
    by destruct st as [[] ? ? ? ?].
Qed.

Lemma add_then_remove_round_trip_witness :
  blank (Skill.name (newSkill Examples.form_with_pending)) = false /\
  formData
    (run (handleRemoveSkill 1
            (run (handleAddSkill Examples.form_with_pending)
               Examples.form_with_pending))
       (run (handleAddSkill Examples.form_with_pending)
          Examples.form_with_pending))
  = formData Examples.form_with_pending.
Proof.
  split; [reflexivity |].
  destruct (add_then_remove_round_trip Examples.form_with_pending) as [H _].
  exact (proj2 (proj2 (H eq_refl))).
Defined.

End FormEntries.

Lemma remove_entry_by_index_witness :
  (length (ProfileForm.skills
             (ProfileForm.formData Examples.form_with_pending)) <= 5)%nat /\
  ProfileForm.run (ProfileForm.handleRemoveSkill 5 Examples.form_with_pending)
    Examples.form_with_pending = Examples.form_with_pending /\
  ProfileForm.skills
    (ProfileForm.formData
       (ProfileForm.run
          (ProfileForm.handleRemoveSkill 0 Examples.form_with_pending)
          Examples.form_with_pending)) = [].
Proof.
  split; [simpl; lia |].
  destruct (remove_entry_by_index Examples.form_with_pending 5)
    as (_ & _ & _ & _ & H & _).
  split; [apply H; simpl; lia |].
  destruct (remove_entry_by_index Examples.form_with_pending 0)
    as ((H0 & _) & _).
  exact H0.
Defined.

(** ** The submission of the form *)

Section FormSubmit.
Import JS ProfileForm.

Lemma chosen_text_truthy err fallback text :
  chosen_text err fallback text -> fallback <> "" -> truthy text = true.
Proof.
  destruct 1 as [d (_ & _ & _ & _ & _ & H) | m _ [_ H] | _ _]; try done.
  intros Hf. simpl. apply negb_true_iff. by apply String.eqb_neq.
Qed.

Lemma submit_effects_keep_entries es st :
  formData (run_submit es st) = formData st /\
  newSkill (run_submit es st) = newSkill st /\
  newCert (run_submit es st) = newCert st.
Proof.
  unfold run_submit. revert st. induction es as [|e es IH]; intros st; [done |].
  simpl. destruct (IH (apply_submit st e)) as (-> & -> & ->).
  by destruct e.
Qed.

(** [handleSubmit] sets [loading] and clears the error before it calls
    [profileAPI.create]; every exit of the continuation ends with
    [setLoading(false)]; [onSuccess] is called exactly when the parent
    passes it and the call is fulfilled, with the profile created; a
    rejection sets a non-empty error text chosen by the precedence of
    [detail], [message] and 'Failed to create profile'.  No path changes
    what has been entered in the form. *)
Theorem form_submit_settles p st o :
  let sent := run_submit (handleSubmit st) st in
  let settled := run_submit (handleSubmit_settled p o).1 sent in
  (exists payload,
     handleSubmit st
     = [ preventDefault; setLoading true; setError Null; create payload ]) /\
  loading sent = true /\ error sent = Null /\
  loading settled = false /\
  formData settled = formData st /\ newSkill settled = newSkill st /\
  newCert settled = newCert st /\
  (forall result,
     call_onSuccess result ∈ (handleSubmit_settled p o).1 <->
     onSuccess p = true /\ o = Resolved result) /\
  (forall result, o = Resolved result -> error settled = Null) /\
  (forall err, o = Rejected err -> nullish err = false ->
     chosen_text err "Failed to create profile" (error settled) /\
     truthy (error settled) = true).
Proof.
  intros sent settled.
  split; [by eexists |]. split; [done |]. split; [done |].
  assert (Hkeep := submit_effects_keep_entries (handleSubmit_settled p o).1 sent).
  fold settled in Hkeep. destruct Hkeep as (Hd & Hs & Hc).
  split.
  { subst settled. unfold handleSubmit_settled.
    destruct o as [result | err]; simpl.
    - by destruct (onSuccess p).
    - by destruct (error_text err "Failed to create profile"). }
  split; [by rewrite Hd |]. split; [by rewrite Hs |]. split; [by rewrite Hc |].
  split; [| split].
  - intros result. unfold handleSubmit_settled.
    destruct o as [r | err]; simpl.
    + destruct (onSuccess p); simpl; rewrite list_elem_of_In; simpl.
      * split.
        -- intros [[= ->] | [H | []]]; [done | discriminate].
        -- intros [_ [= ->]]. by left.
      * split; [intros [H | []]; discriminate | intros [H _]; discriminate].
    + destruct (error_text err "Failed to create profile"); simpl;
        rewrite list_elem_of_In; simpl.
      * split; [intros [H | [H | []]]; discriminate | intros [_ H]; discriminate].
      * split; [intros [H | []]; discriminate | intros [_ H]; discriminate].
  - intros result ->. subst settled. unfold handleSubmit_settled. simpl.
    by destruct (onSuccess p).
  - intros err -> Herr. subst settled. unfold handleSubmit_settled.
    destruct (error_text_chosen err "Failed to create profile" Herr)
      as (text & Htext & Hchosen).
    simpl. rewrite Htext. simpl.
    split; [done | by apply (chosen_text_truthy err "Failed to create profile")].
Qed.

Lemma form_submit_settles_witness :
  nullish Examples.not_found = false /\
  error (run_submit
           (handleSubmit_settled Examples.form_props
              (Rejected Examples.not_found)).1
           (run_submit (handleSubmit Examples.form_with_pending)
              Examples.form_with_pending))
  = Str "profile not found".
Proof.
  split; [reflexivity |].
  destruct (form_submit_settles Examples.form_props Examples.form_with_pending
              (Rejected Examples.not_found))
    as (_ & _ & _ & _ & _ & _ & _ & _ & _ & H).
  destruct (H Examples.not_found eq_refl eq_refl) as [Hchosen _].
  apply (chosen_text_unique Examples.not_found "Failed to create profile");
    [exact Hchosen |].
  apply by_detail. eexists _, _. repeat split; reflexivity.
Defined.

(** What [handleSubmit] sends to [profileAPI.create] can be read back as
    the form: one request is issued, after [loading] is set and the error
    cleared, and in its payload the name, the role, the years and the
    certifications are those of the form, and the skills are the skills of
    the form in the same order, each with its name, its proficiency and its
    years (the [|| 0] of the mapping changes no number of years). *)
Theorem submit_payload_reads_back st payload :
  create payload ∈ handleSubmit st ->
  let d := formData st in
  handleSubmit st
  = [ preventDefault; setLoading true; setError Null; create payload ] /\
  prop payload "name" = Ok (Str (name d)) /\
  prop payload "current_role" = Ok (Str (current_role d)) /\
  prop payload "experience_years" = Ok (Num (experience_years d)) /\
  prop payload "certifications" = Ok (Arr (Str <$> certifications d)) /\
  exists entries,
    prop payload "skills" = Ok (Arr entries) /\
    length entries = length (skills d) /\
    forall i k, skills d !! i = Some k ->
      exists entry,
        entries !! i = Some entry /\
        prop entry "name" = Ok (Str (Skill.name k)) /\
        prop entry "proficiency" = Ok (Str (Skill.proficiency k)) /\
        prop entry "years_experience" = Ok (Num (Skill.years_experience k)).
Proof.
  intros Hin d.
  assert (Hp : payload = profileData d).
  { unfold handleSubmit in Hin. apply list_elem_of_In in Hin. simpl in Hin.
    destruct Hin as [H | [H | [H | [H | []]]]]; try discriminate.
    by injection H as <-. }
  subst payload. split; [reflexivity |].
  repeat split; try reflexivity.
  exists (skill_payload <$> skills d).
  split; [reflexivity |]. split; [apply length_fmap |].
  intros i k Hk. exists (skill_payload k).
  split; [by rewrite list_lookup_fmap, Hk |].
  repeat split; try reflexivity.
  unfold skill_payload, or. simpl.
  destruct (Z.eqb_spec (Skill.years_experience k) 0) as [-> | Hne]; reflexivity.
Qed.

Lemma submit_payload_reads_back_witness :
  ProfileForm.skills (ProfileForm.formData Examples.form_with_pending) !! 0%nat
  = Some {| Skill.name := "Rocq"; Skill.proficiency := "expert";
            Skill.years_experience := 5 |} /\
  exists payload entries entry,
    create payload ∈ handleSubmit Examples.form_with_pending /\
    prop payload "skills" = Ok (Arr entries) /\
    entries !! 0%nat = Some entry /\
    prop entry "years_experience" = Ok (Num 5).
Proof.
  split; [reflexivity |].
  assert (Hin : create (profileData (formData Examples.form_with_pending))
                ∈ handleSubmit Examples.form_with_pending)
    by (unfold handleSubmit; repeat constructor).
  destruct (submit_payload_reads_back Examples.form_with_pending _ Hin)
    as (_ & _ & _ & _ & _ & entries & Hskills & _ & H).
  destruct (H 0%nat _ eq_refl) as (entry & Hentry & _ & _ & Hyears).
  exists (profileData (formData Examples.form_with_pending)), entries, entry.
  split; [exact Hin |]. repeat split; assumption.
Defined.

End FormSubmit.

(** ** The dashboard *)

Section DashboardExtras.
Import JS ProfileDisplay.

Lemma display_steps_snoc evs ev i : steps (evs ++ [ev]) i = step (steps evs i) ev.
Proof. unfold steps. by rewrite foldl_app. Qed.

Lemma display_quiet_step i ev :
  is_quiet ev = true ->
  props (step i ev) = props i /\
  analyzing (state (step i ev)) = analyzing (state i) /\
  analysisResult (state (step i ev)) = analysisResult (state i) /\
  analysisError (state (step i ev)) = analysisError (state i).
Proof.
  destruct ev; try discriminate; intros _; try done.
  unfold step, effects, handleShowSkills.
  by destruct (negb (truthy skills) || length_is_0 skills).
Qed.

Lemma display_quiet_steps i evs :
  Forall (fun ev => is_quiet ev = true) evs ->
  props (steps evs i) = props i /\
  analyzing (state (steps evs i)) = analyzing (state i) /\
  analysisResult (state (steps evs i)) = analysisResult (state i) /\
  analysisError (state (steps evs i)) = analysisError (state i).
Proof.
  induction evs as [|ev evs IH] using rev_ind; [done |].
  intros H. apply Forall_app in H as [Hevs Hev].
  rewrite Forall_singleton in Hev. rewrite display_steps_snoc.
  destruct (display_quiet_step (steps evs i) ev Hev) as (-> & -> & -> & ->).
  by apply IH.
Qed.

(** [handleCloseModal] puts the modal back to closed, no items, no title,
    whatever it was, and touches nothing else; closing twice is closing
    once; and from a closed modal, [handleShowSkills] followed by
    [handleCloseModal] gives back the state, whether the modal opened or
    the notice was shown. *)
Theorem close_modal_resets st :
  let closed := run handleCloseModal st in
  (showSkillsModal closed = false /\ modalSkills closed = Arr [] /\
   modalTitle closed = "") /\
  (profile closed = profile st /\ loading closed = loading st /\
   error closed = error st /\ showAnalysis closed = showAnalysis st /\
   analysisQuery closed = analysisQuery st /\
   targetRole closed = targetRole st /\ analyzing closed = analyzing st /\
   analysisResult closed = analysisResult st /\
   analysisError closed = analysisError st) /\
  run handleCloseModal closed = closed /\
  (showSkillsModal st = false -> modalSkills st = Arr [] ->
   modalTitle st = "" ->
   forall skills title,
     run handleCloseModal (run (handleShowSkills skills title) st) = st).
Proof.
  intros closed. subst closed. repeat split.
  intros H1 H2 H3 skills title. destruct st; simpl in *; subst.
  unfold handleShowSkills.
  by destruct (negb (truthy skills) || length_is_0 skills).
Qed.

Lemma close_modal_resets_witness :
  showSkillsModal initial = false /\ modalSkills initial = Arr [] /\
  modalTitle initial = "" /\
  run handleCloseModal
    (run (handleShowSkills (Arr [Str "Rust"]) "Skills Weak") initial)
  = initial.
Proof.
  split; [reflexivity |]. split; [reflexivity |]. split; [reflexivity |].
  destruct (close_modal_resets initial) as (_ & _ & _ & H).
  exact (H eq_refl eq_refl eq_refl (Arr [Str "Rust"]) "Skills Weak").
Defined.

(** A dashboard without a truthy [profileId] never calls the service: the
    effect of the mount issues no [profileAPI.get] and the dashboard shows
    'No profile ID provided'; [handleAnalyze] issues no
    [analysisAPI.analyze], sets 'Profile ID is missing' and leaves
    [analyzing] as it is. *)
Theorem dashboard_without_id p st :
  truthy (profileId p) = false ->
  (forall id, get id ∉ profileId_effect p) /\
  render (state (mount p)) = ErrorBanner (Str "No profile ID provided") /\
  handleAnalyze p st = [ setAnalysisError (Str "Profile ID is missing") ] /\
  (forall req, analyze req ∉ handleAnalyze p st) /\
  analyzing (run (handleAnalyze p st) st) = analyzing st /\
  analysisResult (run (handleAnalyze p st) st) = analysisResult st.
Proof.
  intros Hid. unfold mount, profileId_effect, handleAnalyze. rewrite Hid.
  simpl. repeat split.
  - intros id Hin. apply list_elem_of_In in Hin. simpl in Hin.
    destruct Hin as [H | [H | []]]; discriminate.
  - intros req Hin. apply list_elem_of_In in Hin. simpl in Hin.
    destruct Hin as [H | []]; discriminate.
Qed.

Lemma dashboard_without_id_witness :
  truthy (Str "") = false /\
  render (state (mount {| profileId := Str "" |}))
  = ErrorBanner (Str "No profile ID provided").
Proof.
  split; [reflexivity |].
  exact (proj1 (proj2 (dashboard_without_id {| profileId := Str "" |}
                         initial eq_refl))).
Defined.

(** A dashboard mounted with a truthy [profileId] requests that profile
    and shows the spinner.  When the request is fulfilled with a truthy
    payload none of the early returns is taken and the render goes on to
    the dashboard with that payload as [profile] (what the dashboard makes
    of the payload is not stated here); with a falsy payload ([null], an
    empty body) the component renders nothing.  When it is rejected the
    banner shows the error text chosen by precedence, and a rejection whose
    reason is [null] or [undefined] renders nothing. *)
Theorem dashboard_load_outcomes p :
  truthy (profileId p) = true ->
  profileId_effect p = [ setLoading true; setError Null; get (profileId p) ] /\
  render (state (mount p)) = Spinner /\
  (forall data,
     render (state (step (mount p) (ProfileSettled (Resolved data))))
     = if truthy data then Proceeds data else Blank) /\
  (forall err, nullish err = false ->
     exists text,
       chosen_text err "Failed to load profile" text /\
       render (state (step (mount p) (ProfileSettled (Rejected err))))
       = ErrorBanner text) /\
  (forall err, nullish err = true ->
     render (state (step (mount p) (ProfileSettled (Rejected err)))) = Blank).
Proof.
  intros Hid.
  assert (Heffect : profileId_effect p
                    = [ setLoading true; setError Null; get (profileId p) ]).
  { unfold profileId_effect, loadProfile. by rewrite Hid. }
  split; [done |]. unfold mount. rewrite Heffect.
  split; [done |]. split; [| split].
  - intros data. unfold step, render. simpl. by destruct (truthy data).
  - intros err Herr.
    destruct (error_text_chosen err "Failed to load profile" Herr)
      as (text & Htext & Hchosen).
    exists text. split; [done |].
    unfold step, render. simpl. unfold loadProfile_settled. rewrite Htext.
    simpl.
    by rewrite (chosen_text_truthy err "Failed to load profile" text Hchosen).
  - intros err Herr. unfold step, render. simpl. unfold loadProfile_settled.
    by destruct err.
Qed.

Lemma dashboard_load_outcomes_witness :
  truthy (Str "A") = true /\
  render (state (step (mount {| profileId := Str "A" |})
                   (ProfileSettled (Resolved Examples.profile_A))))
  = Proceeds Examples.profile_A.
Proof.
  split; [reflexivity |].
  destruct (dashboard_load_outcomes {| profileId := Str "A" |} eq_refl)
    as (_ & _ & H & _).
  exact (H Examples.profile_A).
Defined.

(** The request [handleAnalyze] issues carries the [profileId] of the
    dashboard.  When the Analyze button is enabled (no analysis in flight, a
    target role that is not blank) the role sent is the one typed, never the
    'Target Role' default, and the query is the one typed or, when none was
    typed, the sentence built from the role. *)
Theorem dashboard_request_fields p st :
  truthy (profileId p) = true ->
  exists req,
    handleAnalyze p st
    = [ setAnalyzing true; setAnalysisError Null; setAnalysisResult Null;
        analyze req ] /\
    prop req "user_profile_id" = Ok (profileId p) /\
    prop req "use_rag" = Ok (Bool true) /\
    (analyze_disabled st = false ->
     AnalysisChat.role_name req = Ok (Str (targetRole st)) /\
     prop req "user_query"
     = Ok (Str (if String.eqb (analysisQuery st) ""
                then "I want to transition to " +:+ targetRole st +:+ "."
                else analysisQuery st))).
Proof.
  intros Hid. unfold handleAnalyze. rewrite Hid. simpl.
  eexists. split; [reflexivity |]. split; [reflexivity |].
  split; [reflexivity |].
  intros Hon. unfold analyze_disabled in Hon.
  apply orb_false_iff in Hon as [_ Hrole].
  apply blank_false_nonempty, String.eqb_neq in Hrole.
  unfold AnalysisChat.role_name, or_str. simpl. rewrite Hrole.
  split; reflexivity.
Qed.

Lemma dashboard_request_fields_witness :
  truthy (profileId (props Examples.dashboard_A)) = true /\
  analyze_disabled (state Examples.dashboard_A) = false /\
  exists req,
    analyze req
    ∈ handleAnalyze (props Examples.dashboard_A) (state Examples.dashboard_A) /\
    AnalysisChat.role_name req = Ok (Str "Senior Architect") /\
    prop req "user_query"
    = Ok (Str "I want to transition to Senior Architect.").
Proof.
  split; [reflexivity |]. split; [reflexivity |].
  destruct (dashboard_request_fields (props Examples.dashboard_A)
              (state Examples.dashboard_A) eq_refl)
    as (req & Heff & _ & _ & H).
  destruct (H eq_refl) as [Hrole Hquery].
  exists req. split; [| split; [exact Hrole | exact Hquery]].
  rewrite Heff. apply list_elem_of_In. simpl. auto.
Defined.

(** One analysis on the dashboard: [handleAnalyze] clears the previous
    result and error and sets [analyzing], which keeps the button disabled
    whatever the user does meanwhile; the settlement clears [analyzing] on
    every path and leaves either the result (fulfilled) or a non-empty error
    text chosen by precedence (rejected), never both. *)
Theorem dashboard_analysis_round i evs o :
  truthy (profileId (props i)) = true ->
  Forall (fun ev => is_quiet ev = true) evs ->
  let started := step i ClickAnalyze in
  let waiting := steps evs started in
  let settled := step waiting (AnalysisSettled o) in
  (analyzing (state started) = true /\
   analysisResult (state started) = Null /\
   analysisError (state started) = Null) /\
  analyze_disabled (state waiting) = true /\
  analyzing (state settled) = false /\
  (forall response, o = Resolved response ->
     analysisResult (state settled) = response /\
     analysisError (state settled) = Null) /\
  (forall err, o = Rejected err -> nullish err = false ->
     analysisResult (state settled) = Null /\
     chosen_text err "Failed to analyze skills"
       (analysisError (state settled)) /\
     truthy (analysisError (state settled)) = true).
Proof.
  intros Hid Hquiet started waiting settled.
  assert (Hstarted : analyzing (state started) = true /\
                     analysisResult (state started) = Null /\
                     analysisError (state started) = Null).
  { subst started. unfold step, effects, handleAnalyze. by rewrite Hid. }
  destruct (display_quiet_steps started evs Hquiet) as (_ & Ha & Hr & He).
  fold waiting in Ha, Hr, He.
  destruct Hstarted as (Hsa & Hsr & Hse). rewrite Hsa in Ha.
  rewrite Hsr in Hr. rewrite Hse in He.
  split; [done |].
  split; [unfold analyze_disabled; by rewrite Ha |].
  subst settled. unfold step, effects, handleAnalyze_settled.
  destruct o as [response | err]; simpl.
  - split; [done |]. split.
    + by intros r [= <-].
    + intros e H. discriminate.
  - destruct (nullish err) eqn:Herr.
    + replace (error_text err "Failed to analyze skills")
        with (@Throw value (TypeError err "response")) by (by destruct err).
      simpl. split; [done |]. split.
      * intros r H. discriminate.
      * intros e [= <-] Hn. congruence.
    + destruct (error_text_chosen err "Failed to analyze skills" Herr)
        as (text & Htext & Hchosen).
      rewrite Htext. simpl. split; [done |]. split.
      * intros r H. discriminate.
      * intros e [= <-] _. split; [done |]. split; [done |].
        by apply (chosen_text_truthy err "Failed to analyze skills").
Qed.

Lemma dashboard_analysis_round_witness :
  truthy (profileId (props Examples.dashboard_A)) = true /\
  analysisError
    (state (step (steps [ChangeAnalysisQuery "why"]
                    (step Examples.dashboard_A ClickAnalyze))
              (AnalysisSettled (Rejected Examples.not_found))))
  = Str "profile not found".
Proof.
  split; [reflexivity |].
  destruct (dashboard_analysis_round Examples.dashboard_A
              [ChangeAnalysisQuery "why"] (Rejected Examples.not_found)
              eq_refl)
    as (_ & _ & _ & _ & H).
  - repeat constructor.
  - destruct (H Examples.not_found eq_refl eq_refl) as (_ & Hchosen & _).
    apply (chosen_text_unique Examples.not_found "Failed to analyze skills");
      [exact Hchosen |].
    apply by_detail. eexists _, _. repeat split; reflexivity.
Defined.

(** The 'Skills Weak' button is rendered only for a non-empty list, so a
    click on it opens the modal and never shows the notice; for a result
    whose [skills_weak] is an array the button is rendered exactly when the
    array is not empty. *)
Theorem weak_button_opens analysisResult :
  (weak_button analysisResult = Some true ->
   exists skills,
     prop analysisResult "skills_weak" = Ok skills /\
     handleShowSkills skills "Skills Weak"
     = [ setModalSkills skills; setModalTitle "Skills Weak";
         setShowSkillsModal true ]) /\
  (forall l, prop analysisResult "skills_weak" = Ok (Arr l) ->
     weak_button analysisResult = Some (bool_decide (l <> []))).
Proof.
  split.
  - unfold weak_button. intros H.
    destruct (prop analysisResult "skills_weak") as [skills |]; [| done].
    exists skills. split; [done |].
    unfold handleShowSkills, length_is_0.
    destruct (truthy skills); [| done].
    destruct (prop skills "length") as [n |]; [| done].
    destruct n as [| | | z | | |]; try done.
    simpl in H. injection H as H. apply Z.ltb_lt in H.
    by destruct z.
  - intros l Hl. unfold weak_button. rewrite Hl. simpl.
    by destruct l.
Qed.

Lemma weak_button_opens_witness :
  weak_button Examples.result_with_weak = Some true /\
  exists skills,
    showSkillsModal
      (run (handleShowSkills skills "Skills Weak") initial) = true.
Proof.
  split; [reflexivity |].
  destruct (weak_button_opens Examples.result_with_weak) as [H _].
  destruct (H eq_refl) as (skills & _ & Heff).
  exists skills. by rewrite Heff.
Defined.

End DashboardExtras.

(** ** The chat *)

Section ChatExtras.
Import JS AnalysisChat.

Lemma chat_run_replies reply st :
  input (run (setMessages <$> reply) st) = input st /\
  targetRole (run (setMessages <$> reply) st) = targetRole st.
Proof.
  unfold run. revert st. induction reply as [|m reply IH]; intros st; [done |].
  rewrite fmap_cons. cbn [foldl].
  by destruct (IH (apply st (setMessages m))) as [-> ->].
Qed.

(** The Send button is disabled exactly when [handleSend] would do nothing,
    and whenever the textarea is.  The keyboard goes through the same test:
    with the button disabled no key submits, Shift+Enter and every key but
    Enter do nothing in the textarea, and Enter without Shift there does
    what the button does. *)
Theorem send_button_agrees p st now e :
  (send_disabled st = true <-> handleSend p st now = []) /\
  (textarea_disabled st = true -> send_disabled st = true) /\
  (send_disabled st = true ->
   (handleKeyPress p st now e).2 = [] /\ targetRole_onKeyPress p st now e = []) /\
  (shiftKey e = true \/ key e <> "Enter" ->
   handleKeyPress p st now e = (false, [])) /\
  (key e = "Enter" -> shiftKey e = false ->
   handleKeyPress p st now e = (true, handleSend p st now)).
Proof.
  assert (Hguard : send_disabled st
                   = blank (input st) || blank (targetRole st) || loading st).
  { unfold send_disabled.
    by destruct (loading st), (blank (input st)), (blank (targetRole st)). }
  assert (Hoff : send_disabled st = true -> handleSend p st now = []).
  { rewrite Hguard. unfold handleSend. by intros ->. }
  split; [| split; [| split; [| split]]].
  - split; [done |]. rewrite Hguard. unfold handleSend.
    by destruct (blank (input st) || blank (targetRole st) || loading st).
  - unfold textarea_disabled, send_disabled.
    destruct (loading st), (blank (input st)); simpl; try done.
  - intros H. unfold handleKeyPress, targetRole_onKeyPress. rewrite (Hoff H).
    split.
    + by destruct (String.eqb (key e) "Enter" && negb (shiftKey e)).
    + by destruct (String.eqb (key e) "Enter").
  - unfold handleKeyPress. intros [-> | H].
    + by rewrite andb_false_r.
    + apply String.eqb_neq in H. by rewrite H.
  - unfold handleKeyPress. intros -> ->. done.
Qed.

Lemma send_button_agrees_witness :
  send_disabled Examples.chat_without_role = true /\
  targetRole_onKeyPress Examples.chat_props Examples.chat_without_role 0
    {| key := "Enter"; shiftKey := false |} = [].
Proof.
  split; [reflexivity |].
  destruct (send_button_agrees Examples.chat_props Examples.chat_without_role
              0 {| key := "Enter"; shiftKey := false |})
    as (_ & _ & H & _).
  exact (proj2 (H eq_refl)).
Defined.

(** A fulfilled request whose response is not [null] or [undefined]
    appends one assistant message: its text is [analysis_summary] when that
    is truthy and 'Analysis completed' otherwise, and the whole response is
    attached as its report.  A response that is [null] or [undefined] is
    reported as an error message instead. *)
Theorem assistant_reply response now :
  (nullish response = false ->
   exists summary,
     prop response "analysis_summary" = Ok summary /\
     handleSend_settled (Resolved response) now =
       ([ setMessages
            {| type := assistant;
               content := if truthy summary then summary
                          else Str "Analysis completed";
               report := Some response;
               timestamp := now |};
          setLoading false ], None)) /\
  (nullish response = true ->
   exists text,
     handleSend_settled (Resolved response) now =
       ([ setMessages {| type := error; content := Str text; report := None;
                         timestamp := now |};
          setLoading false ], None)).
Proof.
  split; intros Hn.
  - destruct (prop_not_nullish response "analysis_summary" Hn) as [x Hx].
    exists x. split; [done |].
    unfold handleSend_settled, handleSend_then. by rewrite Hx.
  - destruct response; try discriminate; by eexists.
Qed.

Lemma assistant_reply_witness :
  nullish Examples.result_with_weak = false /\
  handleSend_settled (Resolved Examples.result_with_weak) 3 =
    ([ setMessages {| type := assistant; content := Str "ok";
                      report := Some Examples.result_with_weak;
                      timestamp := 3 |};
       setLoading false ], None).
Proof.
  split; [reflexivity |].
  destruct (assistant_reply Examples.result_with_weak 3) as [H _].
  destruct (H eq_refl) as (summary & Hs & Heq).
  rewrite Heq. vm_compute in Hs. injection Hs as <-. reflexivity.
Defined.

(** While a request is in flight, a field changes only when the user types
    into it. *)
Lemma chat_fields_in_flight p evs st :
  Forall (fun ev => is_ui ev = true) evs -> loading st = true ->
  (Forall (fun ev => types_query ev = false) evs ->
   input (steps p evs st) = input st) /\
  (Forall (fun ev => types_role ev = false) evs ->
   targetRole (steps p evs st) = targetRole st).
Proof.
  intros Hui. revert st. induction Hui as [|ev evs Hev _ IH]; intros st Hl.
  - done.
  - assert (Hstep : loading (step p st ev) = true /\
                    (types_query ev = false ->
                     input (step p st ev) = input st) /\
                    (types_role ev = false ->
                     targetRole (step p st ev) = targetRole st)).
    { unfold step. destruct ev as [s | s | now | o now]; simpl; try done.
      rewrite handleSend_refuses; [done | auto]. }
    destruct Hstep as (Hl' & Hq & Hr). destruct (IH _ Hl') as [IHq IHr].
    split; intros Hno; apply Forall_cons in Hno as [Hno1 Hno2];
      change (steps p (ev :: evs) st) with (steps p evs (step p st ev)).
    + by rewrite IHq, Hq.
    + by rewrite IHr, Hr.
Qed.

(** An accepted submission sends the query and the role as they were typed,
    shows the query as the user message, clears the input and keeps the
    role.  Until the request settles, whatever the user does, the textarea
    and the Send button are disabled; the role field is not.  The
    settlement clears [loading] and changes neither field: from then on the
    textarea is enabled exactly when the role, as it may have been edited
    meanwhile, is not blank, and Send exactly when neither field is blank.
    So when nothing was typed into the query meanwhile, Send stays disabled
    until a new query is typed, and when the role was not edited meanwhile
    it is the role of the submission and the textarea is enabled again. *)
Theorem send_clears_input p st now evs o now' :
  send_disabled st = false ->
  Forall (fun ev => is_ui ev = true) evs ->
  let sent := step p st (Send now) in
  let waiting := steps p evs sent in
  let settled := step p waiting (Settled o now') in
  (exists req,
     analyze req ∈ handleSend p st now /\
     prop req "user_query" = Ok (Str (input st)) /\
     role_name req = Ok (Str (targetRole st)) /\
     prop req "user_profile_id"
     = Ok (or (field (profile p) "id") (field (profile p) "profile_id"))) /\
  last (messages sent) = Some (userMessage st now) /\
  content (userMessage st now) = Str (input st) /\
  (input sent = "" /\ targetRole sent = targetRole st /\
   send_disabled sent = true) /\
  (textarea_disabled waiting = true /\ send_disabled waiting = true) /\
  (loading settled = false /\
   input settled = input waiting /\ targetRole settled = targetRole waiting /\
   textarea_disabled settled = blank (targetRole waiting) /\
   send_disabled settled
   = blank (input waiting) || blank (targetRole waiting)) /\
  (Forall (fun ev => types_query ev = false) evs ->
   input settled = "" /\ send_disabled settled = true) /\
  (Forall (fun ev => types_role ev = false) evs ->
   targetRole settled = targetRole st /\ textarea_disabled settled = false).
Proof.
  intros Hon Hui sent waiting settled. unfold send_disabled in Hon.
  apply orb_false_iff in Hon as [Hon Hrole].
  apply orb_false_iff in Hon as [Hload Hinput].
  assert (Heff := handleSend_accepts p st now Hinput Hrole Hload).
  assert (Hsent : sent =
    {| messages := messages st ++ [userMessage st now]; input := "";
       loading := true; targetRole := targetRole st |}).
  { subst sent. unfold step. simpl. by rewrite Heff. }
  assert (Hl : loading sent = true) by by rewrite Hsent.
  destruct (chat_ui_while_loading p evs sent Hui Hl) as [Hlw _].
  destruct (chat_fields_in_flight p evs sent Hui Hl) as [Hq Hr].
  fold waiting in Hlw, Hq, Hr.
  assert (H : loading settled = false /\ input settled = input waiting /\
              targetRole settled = targetRole waiting).
  { subst settled. unfold step. simpl.
    destruct (handleSend_settled_shape o now') as (reply & -> & _).
    rewrite chat_run_app. destruct (chat_run_replies reply waiting) as [Hi Ht].
    simpl. by rewrite Hi, Ht. }
  destruct H as (H1 & H2 & H3).
  assert (Htext : textarea_disabled settled = blank (targetRole waiting)).
  { unfold textarea_disabled. by rewrite H1, H3. }
  assert (Hsend : send_disabled settled
                  = blank (input waiting) || blank (targetRole waiting)).
  { unfold send_disabled. by rewrite H1, H2, H3. }
  split.
  { eexists. rewrite Heff. split; [apply list_elem_of_In; simpl; eauto 6 |].
    repeat split; reflexivity. }
  split; [rewrite Hsent; apply last_snoc |]. split; [done |].
  split; [by rewrite Hsent |].
  split; [unfold textarea_disabled, send_disabled; by rewrite Hlw |].
  split; [done |]. split.
  - intros Hno. rewrite Hsend, H2, (Hq Hno), Hsent. done.
  - intros Hno. rewrite Htext, H3, (Hr Hno), Hsent. simpl. by rewrite Hrole.
Qed.

Lemma emitted_while_loading p evs st :
  Forall (fun ev => is_ui ev = true) evs -> loading st = true ->
  Forall (fun e => exists s, e = setInput s \/ e = setTargetRole s)
    (emitted p evs st).
Proof.
  intros Hui. revert st. induction Hui as [|ev evs Hev _ IH]; intros st Hl.
  - constructor.
  - simpl. apply Forall_app. split.
    + destruct ev as [s | s | now | o now]; simpl; try done.
      * repeat constructor. eauto.
      * repeat constructor. eauto.
      * rewrite handleSend_refuses by auto. constructor.
    + apply IH.
      by destruct (chat_ui_while_loading p [ev] st
                     (Forall_cons_2 _ _ _ Hev (Forall_nil_2 _)) Hl).
Qed.

(** One request at a time: from an accepted submission until its
    settlement, whatever the user types, clicks or presses, no second
    [analysisAPI.analyze] is issued and no message is appended. *)
Theorem one_request_in_flight p st now evs :
  send_disabled st = false ->
  Forall (fun ev => is_ui ev = true) evs ->
  let sent := step p st (Send now) in
  (forall req, analyze req ∉ emitted p evs sent) /\
  (forall m, setMessages m ∉ emitted p evs sent) /\
  messages (steps p evs sent) = messages st ++ [userMessage st now].
Proof.
  intros Hon Hui sent. unfold send_disabled in Hon.
  apply orb_false_iff in Hon as [Hon Hrole].
  apply orb_false_iff in Hon as [Hload Hinput].
  assert (Hsent : loading sent = true /\
                  messages sent = messages st ++ [userMessage st now]).
  { subst sent. unfold step. simpl. by rewrite handleSend_accepts. }
  destruct Hsent as [Hl Hm]. clearbody sent.
  destruct (chat_ui_while_loading p evs sent Hui Hl) as [_ Hsame].
  rewrite Hsame, Hm.
  pose proof (emitted_while_loading p evs sent Hui Hl) as Hall.
  rewrite Forall_forall in Hall.
  split; [| split; [| done]].
  - intros req Hin. destruct (Hall _ Hin) as (s & [H | H]); discriminate.
  - intros m Hin. destruct (Hall _ Hin) as (s & [H | H]); discriminate.
Qed.

Lemma one_request_in_flight_witness :
  send_disabled Examples.chat_ready = false /\
  Forall (fun ev => is_ui ev = true) [ ChangeInput "again"; Send 1 ] /\
  forall req,
    analyze req
    ∉ emitted Examples.chat_props [ ChangeInput "again"; Send 1 ]
        (step Examples.chat_props Examples.chat_ready (Send 0)).
Proof.
  assert (H : Forall (fun ev => is_ui ev = true)
                [ ChangeInput "again"; Send 1 ]) by repeat constructor.
  split; [reflexivity |]. split; [exact H |].
  exact (proj1 (one_request_in_flight Examples.chat_props Examples.chat_ready
                  0 _ eq_refl H)).
Defined.

Lemma send_clears_input_witness :
  send_disabled Examples.chat_ready = false /\
  Forall (fun ev => is_ui ev = true) [ ChangeTargetRole " " ] /\
  let settled :=
    step Examples.chat_props
      (steps Examples.chat_props [ ChangeTargetRole " " ]
         (step Examples.chat_props Examples.chat_ready (Send 0)))
      (Settled (Rejected Examples.not_found) 1) in
  input settled = "" /\ send_disabled settled = true /\
  textarea_disabled settled = true.
Proof.
  assert (Hui : Forall (fun ev => is_ui ev = true) [ ChangeTargetRole " " ])
    by repeat constructor.
  assert (Hno : Forall (fun ev => types_query ev = false)
                  [ ChangeTargetRole " " ])
    by repeat constructor.
  split; [reflexivity |]. split; [exact Hui |].
  destruct (send_clears_input Examples.chat_props Examples.chat_ready 0
              [ ChangeTargetRole " " ] (Rejected Examples.not_found) 1
              eq_refl Hui)
    as (_ & _ & _ & _ & _ & (_ & _ & _ & Htext & _) & Hquery & _).
  destruct (Hquery Hno) as [H1 H2].
  split; [exact H1 |]. split; [exact H2 |].
  exact (eq_trans Htext eq_refl).
Defined.

End ChatExtras.

(** ** The list view *)

Section ListExtras.
Import JS ProfileList.

Lemma card_of_ok v :
  nullish v = false -> exists c, card_of v = Ok c /\ profile c = v.
Proof.
  intros Hv. unfold card_of.
  destruct (prop_not_nullish v "id" Hv) as [id ->].
  destruct (prop_not_nullish v "profile_id" Hv) as [pid Hpid]. simpl.
  destruct (truthy id); simpl; [| rewrite Hpid; simpl]; eauto.
Qed.

Lemma card_of_throws v : nullish v = true -> exists e, card_of v = Throw e.
Proof. destruct v; try discriminate; intros _; by eexists. Qed.

Lemma cards_ok l :
  Forall (fun v => nullish v = false) l ->
  exists cards,
    mapM card_of l = Ok cards /\ profile <$> cards = l /\
    Forall (fun c => card_of (profile c) = Ok c) cards.
Proof.
  induction 1 as [|v l Hv _ (cards & Hcards & Hl & Hall)].
  - by exists [].
  - destruct (card_of_ok v Hv) as (c & Hc & Hp).
    exists (c :: cards).
    split; [simpl; rewrite Hc; simpl; by rewrite Hcards |].
    split; [rewrite fmap_cons; by rewrite Hp, Hl |].
    constructor; [by rewrite Hp | done].
Qed.

Lemma cards_throw l :
  Exists (fun v => nullish v = true) l -> exists e, mapM card_of l = Throw e.
Proof.
  induction 1 as [v l Hv | v l _ [e He]].
  - destruct (card_of_throws v Hv) as [e He]. exists e. simpl. by rewrite He.
  - simpl. destruct (card_of v) as [c | e']; simpl; [| by eexists].
    rewrite He. by eexists.
Qed.

(** Once loaded without error, a list that is not empty renders one card per
    record, in the order of the payload, each computed from its record.  The
    test on the payload covers its shape only: a [null] or [undefined] entry
    makes the render throw. *)
Theorem list_grid st l :
  loading st = false -> truthy (error st) = false ->
  profiles st = Arr l -> l <> [] ->
  (Forall (fun v => nullish v = false) l ->
   exists cards,
     render st = Ok (Grid cards) /\ profile <$> cards = l /\
     Forall (fun c => card_of (profile c) = Ok c) cards) /\
  (Exists (fun v => nullish v = true) l -> exists e, render st = Throw e).
Proof.
  intros Hl He Hp Hne.
  assert (Hrender : render st =
            (cards ← mapM card_of l; Ok (Grid cards))).
  { unfold render. rewrite Hl, He, Hp. simpl.
    destruct l as [|v l]; [done |]. simpl length.
    by destruct (Z.of_nat (S (length l))) eqn:E. }
  rewrite Hrender. split.
  - intros Hall. destruct (cards_ok l Hall) as (cards & -> & H).
    by exists cards.
  - intros Hex. destruct (cards_throw l Hex) as (e & ->). by exists e.
Qed.

Lemma list_grid_witness :
  (exists cards,
     render Examples.list_of_two = Ok (Grid cards) /\
     profile <$> cards = [ Examples.profile_A; Examples.profile_B ]) /\
  (exists e, render Examples.list_with_null = Throw e).
Proof.
  split.
  - destruct (list_grid Examples.list_of_two
                [ Examples.profile_A; Examples.profile_B ]
                eq_refl eq_refl eq_refl) as [H _]; [done |].
    destruct H as (cards & Hr & Hp & _); [by repeat constructor |].
    by exists cards.
  - destruct (list_grid Examples.list_with_null [ Examples.profile_A; Null ]
                eq_refl eq_refl eq_refl) as [_ H]; [done |].
    apply H. apply Exists_cons_tl, Exists_cons_hd. reflexivity.
Defined.

(** A failed load keeps the profiles and clears [loading].  It shows the
    banner with the text chosen by precedence; only a rejection whose reason
    is [null] or [undefined] sets no error, and the view then renders its
    profiles as if the load had succeeded. *)
Theorem list_load_failure p st err :
  let loaded := step p (step p st Mounted) (Settled (Rejected err)) in
  profiles loaded = profiles st /\ loading loaded = false /\
  (nullish err = false ->
   exists text,
     chosen_text err "Failed to load profiles" text /\
     render loaded = Ok (ErrorBanner text)) /\
  (nullish err = true ->
   error loaded = Null /\
   (profiles st = Arr [] -> render loaded = Ok NoProfilesFound)).
Proof.
  intros loaded. subst loaded. unfold step. simpl.
  unfold loadProfiles_settled.
  destruct (nullish err) eqn:Herr.
  - replace (error_text err "Failed to load profiles")
      with (@Throw value (TypeError err "response")) by (by destruct err).
    simpl. split; [done |]. split; [done |]. split; [done |].
    intros _. split; [done |]. intros Hp. unfold render. simpl.
    by rewrite Hp.
  - destruct (error_text_chosen err "Failed to load profiles" Herr)
      as (text & Htext & Hchosen).
    rewrite Htext. simpl. split; [done |]. split; [done |].
    split; [| done]. intros _. exists text. split; [done |].
    unfold render. simpl.
    by rewrite (chosen_text_truthy err "Failed to load profiles" text Hchosen).
Qed.

Lemma list_load_failure_witness :
  nullish Examples.not_found = false /\
  render (step Examples.list_props (step Examples.list_props initial Mounted)
            (Settled (Rejected Examples.not_found)))
  = Ok (ErrorBanner (Str "profile not found")).
Proof.
  split; [reflexivity |].
  destruct (list_load_failure Examples.list_props initial Examples.not_found)
    as (_ & _ & H & _).
  destruct (H eq_refl) as (text & Hchosen & Hrender).
  rewrite Hrender. do 2 f_equal.
  apply (chosen_text_unique Examples.not_found "Failed to load profiles");
    [exact Hchosen |].
  apply by_detail. eexists _, _. repeat split; reflexivity.
Defined.

End ListExtras.

(** ** The router *)

Section RouterExtras.
Import JS App.

Lemma navigation_keeps_status st ev :
  is_navigation ev = true -> apiStatus (step st ev) = apiStatus st.
Proof.
  destruct ev as [o | | result | record | profile |]; try discriminate;
    intros _; try done.
  unfold step, effects, handleSelectProfile.
  by destruct (negb (truthy (or (field record "id")
                                (field record "profile_id")))).
Qed.

(** The connectivity indicator is a snapshot of the one probe: it reads
    'Disconnected' until the probe settles, then 'Connected' or
    'Disconnected' as the probe was fulfilled or rejected, and no navigation
    changes it. *)
Theorem health_snapshot evs :
  Forall (fun ev => is_navigation ev = true) evs ->
  indicator (steps evs initial) = "Disconnected" /\
  forall st o,
    apiStatus (steps evs (step st (HealthSettled o)))
    = (if o is Resolved _ then connected else disconnected) /\
    indicator (steps evs (step st (HealthSettled o)))
    = (if o is Resolved _ then "Connected" else "Disconnected").
Proof.
  intros Hnav.
  assert (Hkeep : forall st, apiStatus (steps evs st) = apiStatus st).
  { induction Hnav as [|ev evs Hev _ IH]; intros st; [done |].
    simpl. rewrite IH. by apply navigation_keeps_status. }
  split.
  - unfold indicator. by rewrite Hkeep.
  - intros st o. unfold indicator. rewrite Hkeep. by destruct o.
Qed.

Lemma health_snapshot_witness :
  Forall (fun ev => is_navigation ev = true)
    [ SelectProfile Examples.record_A; BackToList ] /\
  indicator (steps [ SelectProfile Examples.record_A; BackToList ]
               (step initial (HealthSettled (Resolved (Str "ok")))))
  = "Connected".
Proof.
  assert (H : Forall (fun ev => is_navigation ev = true)
                [ SelectProfile Examples.record_A; BackToList ])
    by repeat constructor.
  split; [exact H |].
  destruct (health_snapshot _ H) as [_ Hs].
  exact (proj2 (Hs initial (Resolved (Str "ok")))).
Defined.

(** What the router maintains when [onAnalyze] comes from a rendered
    dashboard: outside the list and the form, the selected profile is
    truthy. *)
Lemma selected_is_truthy_step st ev :
  from_rendered_tree ev = true ->
  (view st = profile_view \/ view st = chat_view ->
   truthy (selectedProfile st) = true) ->
  view (step st ev) = profile_view \/ view (step st ev) = chat_view ->
  truthy (selectedProfile (step st ev)) = true.
Proof.
  intros Hev Hinv. unfold step.
  destruct ev as [[?|?] | | result | record | profile |]; simpl.
  - exact Hinv.
  - exact Hinv.
  - intros [H | H]; discriminate.
  - intros [H | H]; discriminate.
  - unfold handleSelectProfile.
    destruct (truthy (or (field record "id") (field record "profile_id")));
      simpl; [done | exact Hinv].
  - done.
  - intros [H | H]; discriminate.
Qed.

(** App always selects a child: over any run in which [onAnalyze] is
    called with a truthy profile, exactly one of the four conditions under
    [<main>] holds, so that App renders one of its four child components
    there (what that child renders in turn, which for a dashboard can be
    nothing, is not stated here), and the 'Back to Profiles' button is
    shown exactly when that child is not the list.  'Back' selects the list
    from any state and forgets the selected profile. *)
Theorem main_selects_a_child evs :
  Forall (fun ev => from_rendered_tree ev = true) evs ->
  (exists el,
     main (steps evs initial) = Some el /\
     (back_button (steps evs initial) = false <-> el = list_element)) /\
  (forall st,
     main (step st BackToList) = Some list_element /\
     selectedProfile (step st BackToList) = Null /\
     back_button (step st BackToList) = false).
Proof.
  intros Hevs. split; [| done].
  assert (Hinv : view (steps evs initial) = profile_view \/
                 view (steps evs initial) = chat_view ->
                 truthy (selectedProfile (steps evs initial)) = true).
  { induction evs as [|ev evs IH] using rev_ind; [by intros [|] |].
    apply Forall_app in Hevs as [Hevs Hev]. rewrite Forall_singleton in Hev.
    rewrite app_steps_snoc. by apply selected_is_truthy_step, IH. }
  unfold main, back_button.
  destruct (view (steps evs initial)).
  - by eexists.
  - eexists. split; [done |]. by split.
  - rewrite Hinv by auto. eexists. split; [done |]. by split.
  - rewrite Hinv by auto. eexists. split; [done |]. by split.
Qed.

Lemma main_selects_a_child_witness :
  Forall (fun ev => from_rendered_tree ev = true)
    [ SelectProfile Examples.record_A; Analyze Examples.profile_A ] /\
  main (steps [ SelectProfile Examples.record_A; Analyze Examples.profile_A ]
          initial)
  = Some (chat_element Examples.profile_A).
Proof.
  assert (H : Forall (fun ev => from_rendered_tree ev = true)
                [ SelectProfile Examples.record_A;
                  Analyze Examples.profile_A ])
    by repeat constructor.
  split; [exact H |].
  destruct (main_selects_a_child _ H) as [(el & Hmain & _) _].
  rewrite Hmain. vm_compute in Hmain. exact (eq_sym Hmain).
Defined.

End RouterExtras.

(** ** Navigation and the state of the views *)

Section SystemExtras.
Import JS System.




End SystemExtras.
